(* Verification of the risk-model lifecycle endpoints
   (backend/routes/model_management.py) and of the fraud detection service
   (backend/services/fraud_detection.py).

   Python floats are modelled as rationals (Q); timestamps as integers;
   MongoDB collections as lists of documents in natural (insertion) order. *)

From Stdlib Require Import List String Bool ZArith QArith Qround Qminmax Lia Lqa.
From Stdlib Require Import Sorted.
Import ListNotations.
Open Scope string_scope.

(* ------------------------------------------------------------------------- *)
(** * Documents of the [risk_models] collection *)

Module ModelManagement.

Record RiskFactor := mkRiskFactor {
  rf_id : string;
  rf_description : string;
  rf_threshold : option Q;
  rf_distanceThreshold : option Q;
  rf_active : bool
}.

(** The [performance] sub-document; [None] is Python's [None]. *)
Record Performance := mkPerformance {
  falsePositiveRate : option Q;
  falseNegativeRate : option Q;
  avgProcessingTime : option Q
}.

Definition performance_unset : Performance := mkPerformance None None None.

Record RiskModel := mkRiskModel {
  _id : nat;
  modelId : string;
  version : Z;
  status : string;
  createdAt : Z;
  updatedAt : Z;
  description : string;
  weights : list (string * Q);
  thresholds : list (string * Q);
  riskFactors : list RiskFactor;
  performance : Performance
}.

Definition Store := list RiskModel.

(** Result of an endpoint: a JSON body, or an [HTTPException]. *)
Inductive Response (A : Type) :=
| Ok : A -> Response A
| HTTPException : Z -> string -> Response A.
Arguments Ok {A} _.
Arguments HTTPException {A} _ _.

Definition is_ok {A} (r : Response A) : bool :=
  match r with Ok _ => true | HTTPException _ _ => false end.

(** ** MongoDB operations on the collection *)

(** [find_one(query)] without sort: first match in natural order. *)
Definition find_one (q : RiskModel -> bool) (s : Store) : option RiskModel :=
  find q s.

(** [find_one(query, sort=[("version", -1)])]: a match of highest version
    (the first one among equal versions). *)
Fixpoint find_one_latest (q : RiskModel -> bool) (s : Store) : option RiskModel :=
  match s with
  | [] => None
  | d :: rest =>
      let best := find_one_latest q rest in
      if q d then
        match best with
        | Some b => if Z.ltb (version d) (version b) then Some b else Some d
        | None => Some d
        end
      else best
  end.

Definition count_documents (q : RiskModel -> bool) (s : Store) : nat :=
  List.length (filter q s).

Definition set_status (st : string) (now : Z) (d : RiskModel) : RiskModel :=
  {| _id := _id d; modelId := modelId d; version := version d; status := st;
     createdAt := createdAt d; updatedAt := now; description := description d;
     weights := weights d; thresholds := thresholds d;
     riskFactors := riskFactors d; performance := performance d |}.

(** [update_one({"_id": i}, {"$set": {"status": st, "updatedAt": now}})]:
    the new store and [modified_count]. A document counts as modified when
    one of the set fields changes. *)
Fixpoint update_one_status (i : nat) (st : string) (now : Z) (s : Store)
  : Store * nat :=
  match s with
  | [] => ([], 0%nat)
  | d :: rest =>
      if Nat.eqb (_id d) i then
        (set_status st now d :: rest,
         if String.eqb (status d) st && Z.eqb (updatedAt d) now then 0%nat else 1%nat)
      else let (rest', n) := update_one_status i st now rest in (d :: rest', n)
  end.

Definition is_active (d : RiskModel) : bool := String.eqb (status d) "active".

(** [update_many({"status": "active"}, {"$set": {"status": "inactive", ...}})] *)
Definition update_many_deactivate (now : Z) (s : Store) : Store :=
  map (fun d => if is_active d then set_status "inactive" now d else d) s.

(** A document with its [_id] replaced. *)
Definition with_id (i : nat) (d : RiskModel) : RiskModel :=
  {| _id := i; modelId := modelId d; version := version d;
     status := status d; createdAt := createdAt d;
     updatedAt := updatedAt d; description := description d;
     weights := weights d; thresholds := thresholds d;
     riskFactors := riskFactors d; performance := performance d |}.

(** [insert_one]: the server assigns a fresh [_id]. *)
Definition fresh_id (s : Store) : nat := S (fold_right Nat.max 0%nat (map _id s)).

Definition insert_one (d : RiskModel) (s : Store) : Store * nat :=
  let i := fresh_id s in (app s [with_id i d], i).

(** The query [{"modelId": model_id}] plus ["version"] when [version] is
    truthy (Python's [if version:] skips [None] and [0]). *)
Definition id_version_query (model_id : string) (v : option Z) (d : RiskModel) : bool :=
  String.eqb (modelId d) model_id &&
  match v with
  | Some n => if Z.eqb n 0 then true else Z.eqb (version d) n
  | None => true
  end.

(** ** Endpoints *)

(** [activate_risk_model] (the body run under [activation_lock]; the two
    writes run in one transaction, committed before [modified_count] is
    checked). *)
Definition activate_risk_model (model_id : string) (v : option Z) (now : Z)
  (s : Store) : Response string * Store :=
  match find_one (id_version_query model_id v) s with
  | None => (HTTPException 404 "Risk model not found", s)
  | Some m =>
      if String.eqb (status m) "active" then
        (Ok ("Model " ++ model_id ++ " is already active"), s)
      else if String.eqb (status m) "archived" then
        (HTTPException 400 "Cannot activate an archived model", s)
      else
        let s1 := update_many_deactivate now s in
        let (s2, modified) := update_one_status (_id m) "active" now s1 in
        if Nat.eqb modified 0 then (HTTPException 400 "Failed to activate model", s2)
        else (Ok ("Model " ++ model_id ++ " activated successfully"), s2)
  end.

(** [archive_risk_model] *)
Definition archive_risk_model (model_id : string) (v : option Z) (now : Z)
  (s : Store) : Response string * Store :=
  match find_one (id_version_query model_id v) s with
  | None => (HTTPException 404 "Risk model not found", s)
  | Some m =>
      if String.eqb (status m) "active" &&
         Nat.leb (count_documents is_active s) 1 then
        (HTTPException 400
           "Cannot archive the only active model. Activate another model first.", s)
      else
        let (s1, modified) := update_one_status (_id m) "archived" now s in
        if Nat.eqb modified 0 then (HTTPException 400 "Failed to archive model", s1)
        else (Ok ("Model " ++ model_id ++ " archived successfully"), s1)
  end.

(** [update_risk_model] *)

Record RiskModelUpdate := mkRiskModelUpdate {
  u_description : option string;
  u_weights : option (list (string * Q));
  u_thresholds : option (list (string * Q));
  u_riskFactors : option (list RiskFactor);
  u_status : option string
}.

(** Python truthiness of the optional request fields: [None], [""] and
    empty containers are falsy. *)
Definition truthy_str (o : option string) : option string :=
  match o with
  | Some x => if String.eqb x "" then None else Some x
  | None => None
  end.

Definition truthy_list {A} (o : option (list A)) : option (list A) :=
  match o with
  | Some (_ :: _) => o
  | _ => None
  end.

Definition override {A} (o : option A) (old : A) : A :=
  match o with Some x => x | None => old end.

(** Structural equality of documents, for [modified_count]. *)
Definition Q_eq_dec (x y : Q) : {x = y} + {x <> y}.
Proof. decide equality; [apply Pos.eq_dec | apply Z.eq_dec]. Defined.

Definition RiskFactor_eq_dec (x y : RiskFactor) : {x = y} + {x <> y}.
Proof.
  decide equality;
    try apply string_dec; try apply bool_dec;
    decide equality; apply Q_eq_dec.
Defined.

Definition RiskModel_eq_dec (x y : RiskModel) : {x = y} + {x <> y}.
Proof.
  decide equality;
    try apply string_dec; try apply Z.eq_dec; try apply Nat.eq_dec.
  - decide equality; decide equality; apply Q_eq_dec.
  - decide equality; apply RiskFactor_eq_dec.
  - decide equality; decide equality; [apply Q_eq_dec | apply string_dec].
  - decide equality; decide equality; [apply Q_eq_dec | apply string_dec].
Defined.

(** [update_one({"_id": i}, {"$set": ...})] with an arbitrary [$set],
    given as the function computing the updated document. *)
Fixpoint update_one_with (i : nat) (f : RiskModel -> RiskModel) (s : Store)
  : Store * nat :=
  match s with
  | [] => ([], 0%nat)
  | d :: rest =>
      if Nat.eqb (_id d) i then
        (f d :: rest, if RiskModel_eq_dec (f d) d then 0%nat else 1%nat)
      else let (rest', n) := update_one_with i f rest in (d :: rest', n)
  end.

(** The new version forked from an active model: [{**model}] without
    [_id], version + 1, status ["draft"], fresh [updatedAt], the truthy
    request fields applied, performance reset. *)
Definition fork_version (m : RiskModel) (u : RiskModelUpdate) (now : Z) : RiskModel :=
  {| _id := _id m;
     modelId := modelId m;
     version := version m + 1;
     status := "draft";
     createdAt := createdAt m;
     updatedAt := now;
     description := override (truthy_str (u_description u)) (description m);
     weights := override (truthy_list (u_weights u)) (weights m);
     thresholds := override (truthy_list (u_thresholds u)) (thresholds m);
     riskFactors := override (truthy_list (u_riskFactors u)) (riskFactors m);
     performance := performance_unset |}.

(** The in-place [$set] of the draft/inactive branch. *)
Definition set_updates (u : RiskModelUpdate) (st : option string) (now : Z)
  (d : RiskModel) : RiskModel :=
  {| _id := _id d;
     modelId := modelId d;
     version := version d;
     status := override st (status d);
     createdAt := createdAt d;
     updatedAt := now;
     description := override (truthy_str (u_description u)) (description d);
     weights := override (truthy_list (u_weights u)) (weights d);
     thresholds := override (truthy_list (u_thresholds u)) (thresholds d);
     riskFactors := override (truthy_list (u_riskFactors u)) (riskFactors d);
     performance := performance d |}.

Definition not_archived_query (model_id : string) (d : RiskModel) : bool :=
  String.eqb (modelId d) model_id && negb (String.eqb (status d) "archived").

Definition update_risk_model (model_id : string) (u : RiskModelUpdate) (now : Z)
  (s : Store) : Response RiskModel * Store :=
  match find_one_latest (not_archived_query model_id) s with
  | None => (HTTPException 404 "Risk model not found", s)
  | Some m =>
      if String.eqb (status m) "active" &&
         negb (match u_status u with Some x => String.eqb x "archived" | None => false end)
      then
        let nm := fork_version m u now in
        let (s1, i) := insert_one nm s in
        (Ok (with_id i nm), s1)
      else
        match truthy_str (u_status u) with
        | Some x =>
            if String.eqb x "active" then
              (HTTPException 400 "Use the dedicated /activate endpoint to activate a model", s)
            else
              let (s1, modified) := update_one_with (_id m) (set_updates u (Some x) now) s in
              if Nat.eqb modified 0 then (HTTPException 400 "Model update failed", s1)
              else match find_one (fun d => Nat.eqb (_id d) (_id m)) s1 with
                   | Some d => (Ok d, s1)
                   | None => (HTTPException 404 "Risk model not found", s1)
                   end
        | None =>
            let (s1, modified) := update_one_with (_id m) (set_updates u None now) s in
            if Nat.eqb modified 0 then (HTTPException 400 "Model update failed", s1)
            else match find_one (fun d => Nat.eqb (_id d) (_id m)) s1 with
                 | Some d => (Ok d, s1)
                 | None => (HTTPException 404 "Risk model not found", s1)
                 end
        end
  end.

(** ** The other endpoints of the router *)

(** The query [{"modelId": model_id, "status": "archived"}] plus
    ["version"] when [version] is truthy. *)
Definition archived_match_query (model_id : string) (v : option Z) (d : RiskModel) : bool :=
  id_version_query model_id v d && String.eqb (status d) "archived".

(** [restore_archived_model] *)
Definition restore_archived_model (model_id : string) (v : option Z) (now : Z)
  (s : Store) : Response string * Store :=
  match find_one (archived_match_query model_id v) s with
  | None => (HTTPException 404 "Archived risk model not found", s)
  | Some m =>
      let (s1, modified) := update_one_status (_id m) "inactive" now s in
      if Nat.eqb modified 0 then (HTTPException 400 "Failed to restore model", s1)
      else (Ok ("Model " ++ model_id ++ " restored successfully"), s1)
  end.

(** The [RiskModelCreate] request body. *)
Record RiskModelCreate := mkRiskModelCreate {
  rc_modelId : string;
  rc_description : string;
  rc_weights : list (string * Q);
  rc_thresholds : list (string * Q);
  rc_riskFactors : list RiskFactor
}.

(** [create_risk_model]: the version follows the first stored document of
    the [modelId] ([find_one] without sort). Both [datetime.now()] calls
    are taken as the same instant [now]. *)
Definition create_risk_model (model : RiskModelCreate) (now : Z) (s : Store)
  : Response RiskModel * Store :=
  let version := match find_one (fun d => String.eqb (modelId d) (rc_modelId model)) s with
                 | Some existing => (version existing + 1)%Z
                 | None => 1%Z
                 end in
  let new_model := {| _id := 0; modelId := rc_modelId model; version := version;
                      status := "draft"; createdAt := now; updatedAt := now;
                      description := rc_description model; weights := rc_weights model;
                      thresholds := rc_thresholds model;
                      riskFactors := rc_riskFactors model;
                      performance := performance_unset |} in
  let (s1, i) := insert_one new_model s in
  (Ok (with_id i new_model), s1).

(** [get_risk_model]: by version when [version] is truthy, otherwise the
    latest non-archived version. *)
Definition get_risk_model (model_id : string) (v : option Z) (s : Store)
  : Response RiskModel :=
  let found :=
    match v with
    | Some n =>
        if Z.eqb n 0 then find_one_latest (not_archived_query model_id) s
        else find_one (fun d => String.eqb (modelId d) model_id && Z.eqb (version d) n) s
    | None => find_one_latest (not_archived_query model_id) s
    end in
  match found with
  | None => HTTPException 404 "Risk model not found"
  | Some d => Ok d
  end.

(** [sort("updatedAt", -1)]: descending [updatedAt]; documents with equal
    [updatedAt] are kept in natural order. *)
Fixpoint insert_by_updated (d : RiskModel) (l : list RiskModel) : list RiskModel :=
  match l with
  | [] => [d]
  | x :: rest =>
      if Z.leb (updatedAt x) (updatedAt d) then d :: x :: rest
      else x :: insert_by_updated d rest
  end.

Definition sort_by_updated_desc (l : list RiskModel) : list RiskModel :=
  fold_right insert_by_updated [] l.

(** The order of the sorted list: [b] comes after [a]. *)
Definition newer_first (a b : RiskModel) : Prop := (updatedAt b <= updatedAt a)%Z.

(** [get_risk_models]: MongoDB applies the sort, then [skip], then
    [limit], whatever the order of the cursor calls. PyMongo refuses a
    negative [skip] ([ValueError], hence a 500); a [limit] of 0 means no
    limit and a negative one is taken by absolute value. *)
Definition get_risk_models (st : option string) (skip limit : Z) (s : Store)
  : Response (list RiskModel) :=
  if Z.ltb skip 0 then HTTPException 500 "Internal Server Error" else
  let matching := match st with
                  | Some x => if String.eqb x "" then s
                              else filter (fun d => String.eqb (status d) x) s
                  | None => s
                  end in
  let skipped := skipn (Z.to_nat skip) (sort_by_updated_desc matching) in
  Ok (if Z.eqb limit 0 then skipped else firstn (Z.to_nat (Z.abs limit)) skipped).

(** ** Performance records ([model_performance] collection) *)

Record UsageRecord := mkUsageRecord {
  ur_modelId : string;
  ur_modelVersion : Z;
  ur_transactionId : string;
  ur_timestamp : Z;
  ur_riskScore : Q;
  ur_riskFactors : list string;
  ur_outcome : option string;       (* [None]: absent or [None] *)
  ur_feedbackTime : option Z
}.

(** The JSON body of [get_model_performance]. *)
Record PerformanceReport := mkPerformanceReport {
  pr_modelId : string;
  pr_version : Z;
  pr_timeframe : string;
  pr_totalEvaluations : nat;
  pr_avgRiskScore : option Q;
  pr_riskFactorDistribution : list (string * Q);
  pr_falsePositiveRate : option Q;
  pr_falseNegativeRate : option Q;
  pr_avgProcessingTime : option Q
}.

(** A Python dict with string keys, in insertion order: [d.get(k)]. *)
Fixpoint lookup {A} (k : string) (d : list (string * A)) : option A :=
  match d with
  | [] => None
  | (k', x) :: rest => if String.eqb k k' then Some x else lookup k rest
  end.

(** [risk_factor_counts[factor] = risk_factor_counts.get(factor, 0) + 1] *)
Fixpoint incr_count (k : string) (d : list (string * nat)) : list (string * nat) :=
  match d with
  | [] => [(k, 1%nat)]
  | (k', n) :: rest =>
      if String.eqb k k' then (k', S n) :: rest else (k', n) :: incr_count k rest
  end.

Definition count_factors (records : list UsageRecord) : list (string * nat) :=
  fold_left (fun acc r => fold_left (fun acc' f => incr_count f acc') (ur_riskFactors r) acc)
            records [].

Definition inject_nat (n : nat) : Q := inject_Z (Z.of_nat n).

(** The start of the timeframe, in seconds ([None]: ["all"]). *)
Definition start_time (timeframe : string) (now : Z) : option Z :=
  if String.eqb timeframe "24h" then Some (now - 86400)%Z
  else if String.eqb timeframe "7d" then Some (now - 7 * 86400)%Z
  else if String.eqb timeframe "30d" then Some (now - 30 * 86400)%Z
  else if String.eqb timeframe "all" then None
  else Some (now - 86400)%Z.

Definition performance_query (model_id : string) (version : Z) (start : option Z)
  (r : UsageRecord) : bool :=
  String.eqb (ur_modelId r) model_id && Z.eqb (ur_modelVersion r) version &&
  match start with Some t => Z.leb t (ur_timestamp r) | None => true end.

Definition sum_scores (records : list UsageRecord) : Q :=
  fold_left (fun acc r => acc + ur_riskScore r) records 0.

Definition count_if (p : UsageRecord -> bool) (records : list UsageRecord) : nat :=
  List.length (filter p records).

Definition is_false_positive (flag : Q) (r : UsageRecord) : bool :=
  Qle_bool flag (ur_riskScore r) &&
  match ur_outcome r with Some o => String.eqb o "legitimate" | None => false end.

Definition is_false_negative (flag : Q) (r : UsageRecord) : bool :=
  negb (Qle_bool flag (ur_riskScore r)) &&
  match ur_outcome r with Some o => String.eqb o "fraud" | None => false end.

Definition has_outcome (r : UsageRecord) : bool :=
  match ur_outcome r with Some _ => true | None => false end.

(** [get_model_performance]. The [KeyError] raised when a record has an
    outcome and the model's thresholds have no ["flag"] is not caught: the
    server answers 500. *)
Definition get_model_performance (model_id : string) (v : option Z)
  (timeframe : string) (now : Z) (s : Store) (ps : list UsageRecord)
  : Response PerformanceReport :=
  match find_one (id_version_query model_id v) s with
  | None => HTTPException 404 "Risk model not found"
  | Some model =>
      let usage_records :=
        filter (performance_query model_id (version model) (start_time timeframe now)) ps in
      let avg_time := avgProcessingTime (performance model) in
      match usage_records with
      | [] => Ok {| pr_modelId := model_id; pr_version := version model;
                    pr_timeframe := timeframe; pr_totalEvaluations := 0;
                    pr_avgRiskScore := None; pr_riskFactorDistribution := [];
                    pr_falsePositiveRate := None; pr_falseNegativeRate := None;
                    pr_avgProcessingTime := None |}
      | _ :: _ =>
          let total_evaluations := List.length usage_records in
          let avg_risk_score := sum_scores usage_records / inject_nat total_evaluations in
          let risk_factor_distribution :=
            map (fun '(factor, count) =>
                   (factor, (inject_nat count / inject_nat total_evaluations) * 100))
                (count_factors usage_records) in
          let records_with_outcome := filter has_outcome usage_records in
          let rates :=
            match records_with_outcome with
            | [] => Some (None, None)
            | _ :: _ =>
                match lookup "flag" (thresholds model) with
                | None => None
                | Some flag =>
                    let total_with_outcome := inject_nat (List.length records_with_outcome) in
                    Some (Some ((inject_nat (count_if (is_false_positive flag)
                                                 records_with_outcome)
                                 / total_with_outcome) * 100),
                          Some ((inject_nat (count_if (is_false_negative flag)
                                                 records_with_outcome)
                                 / total_with_outcome) * 100))
                end
            end in
          match rates with
          | None => HTTPException 500 "Internal Server Error"
          | Some (fpr, fnr) =>
              Ok {| pr_modelId := model_id; pr_version := version model;
                    pr_timeframe := timeframe; pr_totalEvaluations := total_evaluations;
                    pr_avgRiskScore := Some avg_risk_score;
                    pr_riskFactorDistribution := risk_factor_distribution;
                    pr_falsePositiveRate := fpr; pr_falseNegativeRate := fnr;
                    pr_avgProcessingTime := avg_time |}
          end
      end
  end.

(** [update_one(filter, {"$set": ...})] on the performance records: the
    first match is updated; the flag is [matched_count > 0]. *)
Fixpoint update_first_record (p : UsageRecord -> bool) (f : UsageRecord -> UsageRecord)
  (ps : list UsageRecord) : list UsageRecord * bool :=
  match ps with
  | [] => ([], false)
  | r :: rest =>
      if p r then (f r :: rest, true)
      else let (rest', m) := update_first_record p f rest in (r :: rest', m)
  end.

Definition set_feedback (outcome : string) (now : Z) (r : UsageRecord) : UsageRecord :=
  {| ur_modelId := ur_modelId r; ur_modelVersion := ur_modelVersion r;
     ur_transactionId := ur_transactionId r; ur_timestamp := ur_timestamp r;
     ur_riskScore := ur_riskScore r; ur_riskFactors := ur_riskFactors r;
     ur_outcome := Some outcome; ur_feedbackTime := Some now |}.

(** [provide_transaction_feedback] *)
Definition provide_transaction_feedback (model_id transaction_id outcome : string)
  (now : Z) (ps : list UsageRecord) : Response string * list UsageRecord :=
  if negb (String.eqb outcome "legitimate" || String.eqb outcome "fraud") then
    (HTTPException 400 "Outcome must be 'legitimate' or 'fraud'", ps)
  else
    let (ps1, matched) :=
      update_first_record (fun r => String.eqb (ur_modelId r) model_id &&
                                    String.eqb (ur_transactionId r) transaction_id)
                          (set_feedback outcome now) ps in
    if matched then (Ok "Feedback recorded successfully", ps1)
    else (HTTPException 404 "Transaction record not found", ps1).

(** The body of [compare_models]. *)
Record Comparison := mkComparison {
  cmp_timeframe : string;
  cmp_model1 : PerformanceReport;
  cmp_model2 : PerformanceReport;
  cmp_differences : list (string * Q);
  cmp_riskFactorDifferences : list (string * Q)
}.

(** [perf.get(key)] for the three compared keys. *)
Definition perf_get (key : string) (p : PerformanceReport) : option Q :=
  if String.eqb key "avgRiskScore" then pr_avgRiskScore p
  else if String.eqb key "falsePositiveRate" then pr_falsePositiveRate p
  else if String.eqb key "falseNegativeRate" then pr_falseNegativeRate p
  else None.

Definition compared_keys : list string :=
  ["avgRiskScore"; "falsePositiveRate"; "falseNegativeRate"].

Definition differences (p1 p2 : PerformanceReport) : list (string * Q) :=
  fold_left (fun acc key =>
               match perf_get key p1, perf_get key p2 with
               | Some x, Some y => app acc [(key, x - y)]
               | _, _ => acc
               end) compared_keys [].

Definition rf_differences (p1 p2 : PerformanceReport) : list (string * Q) :=
  map (fun '(factor, pct) =>
         (factor, pct - match lookup factor (pr_riskFactorDistribution p2) with
                        | Some o => o
                        | None => 0
                        end))
      (pr_riskFactorDistribution p1).

(** [compare_models]: both reports by [get_model_performance] without a
    version; an exception of either call propagates. *)
Definition compare_models (model_id comparison_model_id timeframe : string) (now : Z)
  (s : Store) (ps : list UsageRecord) : Response Comparison :=
  match get_model_performance model_id None timeframe now s ps with
  | HTTPException c m => HTTPException c m
  | Ok p1 =>
      match get_model_performance comparison_model_id None timeframe now s ps with
      | HTTPException c m => HTTPException c m
      | Ok p2 =>
          Ok {| cmp_timeframe := timeframe; cmp_model1 := p1; cmp_model2 := p2;
                cmp_differences := differences p1 p2;
                cmp_riskFactorDifferences := rf_differences p1 p2 |}
      end
  end.

(** ** [convert_to_json_serializable] *)

(** A naive [datetime], by its fields. *)
Record DateTime := mkDateTime {
  dt_year : Z; dt_month : Z; dt_day : Z;
  dt_hour : Z; dt_minute : Z; dt_second : Z; dt_microsecond : Z
}.

(** The last [width] decimal digits of a non-negative [n], zero-padded
    ([f"{n:0{width}d}"] for [n < 10 ^ width]). *)
Fixpoint digits (width : nat) (n : Z) : string :=
  match width with
  | O => ""
  | S w => digits w (n / 10) ++ String (Ascii.ascii_of_nat (48 + Z.to_nat (n mod 10))) ""
  end.

(** [datetime.isoformat()]: [YYYY-MM-DDTHH:MM:SS], with [.ffffff] when
    the microseconds are not zero. *)
Definition isoformat (d : DateTime) : string :=
  digits 4 (dt_year d) ++ "-" ++ digits 2 (dt_month d) ++ "-" ++ digits 2 (dt_day d) ++
  "T" ++ digits 2 (dt_hour d) ++ ":" ++ digits 2 (dt_minute d) ++ ":" ++
  digits 2 (dt_second d) ++
  (if Z.eqb (dt_microsecond d) 0 then "" else "." ++ digits 6 (dt_microsecond d)).

(** The values of a MongoDB document, as read by the driver. *)
#[warnings="-register-all"]
Inductive JsonVal :=
| JNull : JsonVal
| JBool : bool -> JsonVal
| JInt : Z -> JsonVal
| JFloat : Q -> JsonVal
| JStr : string -> JsonVal
| JDatetime : DateTime -> JsonVal
| JObjectId : string -> JsonVal          (* by its hexadecimal string *)
| JList : list JsonVal -> JsonVal
| JDict : list (string * JsonVal) -> JsonVal.

Fixpoint convert_to_json_serializable (obj : JsonVal) : JsonVal :=
  match obj with
  | JDatetime d => JStr (isoformat d)
  | JObjectId h => JStr h
  | JDict entries =>
      JDict (map (fun '(k, v) => (k, convert_to_json_serializable v)) entries)
  | JList items => JList (map convert_to_json_serializable items)
  | _ => obj
  end.

(** A value holds no [datetime] and no [ObjectId], at any depth. *)
Fixpoint json_serializable (obj : JsonVal) : bool :=
  match obj with
  | JDatetime _ | JObjectId _ => false
  | JDict entries => forallb (fun '(_, v) => json_serializable v) entries
  | JList items => forallb json_serializable items
  | _ => true
  end.

End ModelManagement.

(* ------------------------------------------------------------------------- *)
(** * The fraud detection service *)

Module FraudDetection.

Open Scope Q_scope.

(** ** Python arithmetic on floats, over Q *)

Definition Qltb (x y : Q) : bool := negb (Qle_bool y x).
Definition Qleb (x y : Q) : bool := Qle_bool x y.

(** Python's [min(a, b)] and [max(a, b)]: the first argument unless the
    second is strictly smaller (resp. larger). *)
Definition py_min (a b : Q) : Q := if Qltb b a then b else a.
Definition py_max (a b : Q) : Q := if Qltb a b then b else a.
Definition py_abs (a : Q) : Q := if Qltb a 0 then - a else a.

(** Python's [round(x, 2)], round half to even. *)
Definition round2 (x : Q) : Q :=
  let n := x * 100 in
  let f := Qfloor n in
  let r := n - inject_Z f in
  let k := if Qltb r (1#2) then f
           else if Qltb (1#2) r then (f + 1)%Z
           else if Z.even f then f else (f + 1)%Z in
  inject_Z k / 100.

(** ** Exceptions *)

Inductive Exc (A : Type) :=
| Ret : A -> Exc A
| Raise : string -> Exc A.
Arguments Ret {A} _.
Arguments Raise {A} _.

Definition bind {A B} (m : Exc A) (k : A -> Exc B) : Exc B :=
  match m with Ret a => k a | Raise e => Raise e end.

Notation "x <- m ;; k" := (bind m (fun x => k))
  (at level 61, m at next level, right associativity).

(** [try: body except Exception: return False, 0.0] *)
Definition catch_detector (body : Exc (bool * Q)) : bool * Q :=
  match body with Ret r => r | Raise _ => (false, 0) end.

(** Dynamically typed profile values ([float], [str] or [None]). *)
Inductive PyVal :=
| PNum : Q -> PyVal
| PStr : string -> PyVal
| PNone : PyVal.

(** [v == 0] *)
Definition py_eq_zero (v : PyVal) : bool :=
  match v with PNum q => Qeq_bool q 0 | _ => false end.

(** [v > q]: comparing a [str] or [None] with a number raises. *)
Definition py_gt (v : PyVal) (q : Q) : Exc bool :=
  match v with PNum x => Ret (Qltb q x) | _ => Raise "TypeError" end.

Definition py_sub (a b : PyVal) : Exc Q :=
  match a, b with PNum x, PNum y => Ret (x - y) | _, _ => Raise "TypeError" end.

Definition py_div (a : Q) (b : PyVal) : Exc Q :=
  match b with
  | PNum y => if Qeq_bool y 0 then Raise "ZeroDivisionError" else Ret (a / y)
  | _ => Raise "TypeError"
  end.

Definition py_div_val (a b : PyVal) : Exc Q :=
  match a with PNum x => py_div x b | _ => Raise "TypeError" end.

(** ** Configuration constants (their defaults) *)

Definition AMOUNT_THRESHOLD_MULTIPLIER : Q := 3.
Definition MAX_LOCATION_DISTANCE_KM : Q := 500.
Definition VELOCITY_TIME_WINDOW_MINUTES : Z := 60.
Definition VELOCITY_THRESHOLD : nat := 5.
Definition WEIGHT_AMOUNT : Q := 1#4.
Definition WEIGHT_LOCATION : Q := 1#4.
Definition WEIGHT_DEVICE : Q := 1#5.
Definition WEIGHT_VELOCITY : Q := 3#20.
Definition WEIGHT_PATTERN : Q := 3#20.

(** ** Transactions and customer profiles *)

Inductive Timestamp :=
| TsDate : Z -> Timestamp        (* a datetime, in seconds *)
| TsStr : string -> Timestamp    (* an ISO string *)
| TsMissing : Timestamp.

Record Transaction := mkTransaction {
  tx_customer_id : option string;
  tx_amount : PyVal;
  tx_coordinates : option (list Q);   (* [location.coordinates.coordinates] *)
  tx_device_id : string;              (* [device_info.device_id], default "" *)
  tx_device_ip : string;              (* [device_info.ip], default "" *)
  tx_timestamp : Timestamp
}.

(** An entry of [behavioral_profile.devices]: a dict, or some other value
    on which [.get] raises. *)
Inductive KnownDevice :=
| DevDict : option string -> list string -> KnownDevice  (* device_id, ip_range *)
| DevOther : KnownDevice.

(** A customer [_id] is an ObjectId (by its hex string) or a plain string. *)
Inductive CustomerId :=
| OId : string -> CustomerId
| SId : string -> CustomerId.

Record Customer := mkCustomer {
  c_id : CustomerId;
  c_account_number : option string;
  c_avg_amount : PyVal;                     (* default 0 *)
  c_std_amount : PyVal;                     (* default 0 *)
  c_usual_locations : list (option (list Q));
  c_devices : list KnownDevice;
  c_overall_risk_score : option Q
}.

(** A stored transaction, as seen by the velocity query. *)
Record TxnRecord := mkTxnRecord {
  t_customer_id : string;
  t_timestamp : Z
}.

(** ** The four detectors *)

(** [_check_amount_anomaly], body of the [try]. *)
Definition check_amount_body (tx : Transaction) (c : Customer) : Exc (bool * Q) :=
  let amt := tx_amount tx in
  let avg := c_avg_amount c in
  let std := c_std_amount c in
  if py_eq_zero avg || py_eq_zero std then Ret (true, 6#10) else
  std_pos <- py_gt std 0 ;;
  z_score <- (if std_pos then (d <- py_sub amt avg ;; py_div (py_abs d) std)
              else Ret 0) ;;
  avg_pos <- py_gt avg 0 ;;
  ratio_to_avg <- (if avg_pos then py_div_val amt avg else Ret 0) ;;
  let is_anomalous := Qltb AMOUNT_THRESHOLD_MULTIPLIER z_score || Qltb 5 ratio_to_avg in
  let risk_score :=
    if Qleb 10 ratio_to_avg then 1
    else if Qleb 5 ratio_to_avg then (85#100) + ((ratio_to_avg - 5) / 5) * (15#100)
    else py_min 1 (z_score / (AMOUNT_THRESHOLD_MULTIPLIER * 2)) in
  Ret (is_anomalous, risk_score).

Definition check_amount_anomaly (tx : Transaction) (c : Customer) : bool * Q :=
  catch_detector (check_amount_body tx c).

(** [min_distance_km]: [None] is [float('inf')]. *)
Definition min_ext (m : option Q) (d : Q) : Q :=
  match m with None => d | Some x => py_min x d end.

(** [distance > MAX_LOCATION_DISTANCE_KM], with [inf > x] true. *)
Definition ext_gt (m : option Q) (q : Q) : bool :=
  match m with None => true | Some x => Qltb q x end.

Definition coords_or_default (o : option (list Q)) : list Q :=
  match o with Some l => l | None => [0; 0] end.

Section Detectors.

(** [_calculate_haversine_distance(lon1, lat1, lon2, lat2)]: trigonometry
    over floats, which may raise ([math.asin] domain error, non-numeric
    coordinates). It is a great-circle distance, hence non-negative. *)
Variable haversine : Q -> Q -> Q -> Q -> Exc Q.

(** [datetime.fromisoformat(s.replace('Z', '+00:00'))], in seconds. *)
Variable fromisoformat : string -> Exc Z.

Fixpoint min_distance (tc : list Q) (locs : list (option (list Q))) (acc : option Q)
  : Exc (option Q) :=
  match locs with
  | [] => Ret acc
  | l :: rest =>
      match coords_or_default l, tc with
      | [x2; y2], [x1; y1] =>
          d <- haversine x1 y1 x2 y2 ;;
          min_distance tc rest (Some (min_ext acc d))
      | _, _ => min_distance tc rest acc
      end
  end.

(** [_check_location_anomaly], body of the [try]. *)
Definition check_location_body (tx : Transaction) (c : Customer) : Exc (bool * Q) :=
  let tc := coords_or_default (tx_coordinates tx) in
  if negb (Nat.eqb (List.length tc) 2) then Ret (false, 0) else
  match c_usual_locations c with
  | [] => Ret (true, 1#2)
  | locs =>
      md <- min_distance tc locs None ;;
      let is_anomalous := ext_gt md MAX_LOCATION_DISTANCE_KM in
      let risk_score :=
        if is_anomalous then
          match md with
          | None => py_max (85#100) 1
          | Some d => py_max (85#100) (py_min 1 (d / (MAX_LOCATION_DISTANCE_KM * (12#10))))
          end
        else
          match md with
          | None => 1#2
          | Some d => py_min (1#2) (d / MAX_LOCATION_DISTANCE_KM)
          end in
      Ret (is_anomalous, risk_score)
  end.

Definition check_location_anomaly (tx : Transaction) (c : Customer) : bool * Q :=
  catch_detector (check_location_body tx c).

(** The device loop: [(device_known, ip_match)]; [break]s on a known id. *)
Fixpoint scan_devices (device_id device_ip : string) (ds : list KnownDevice)
  (ip_match : bool) : Exc (bool * bool) :=
  match ds with
  | [] => Ret (false, ip_match)
  | DevOther :: _ => Raise "AttributeError"
  | DevDict did ips :: rest =>
      if match did with Some x => String.eqb x device_id | None => false end
      then Ret (true, ip_match)
      else
        let ip_match' :=
          if String.eqb device_ip "" then ip_match
          else ip_match || existsb (String.eqb device_ip) ips in
        scan_devices device_id device_ip rest ip_match'
  end.

(** [_check_device_anomaly], body of the [try]. *)
Definition check_device_body (tx : Transaction) (c : Customer) : Exc (bool * Q) :=
  if String.eqb (tx_device_id tx) "" then Ret (true, 1#2) else
  r <- scan_devices (tx_device_id tx) (tx_device_ip tx) (c_devices c) false ;;
  let (device_known, ip_match) := r in
  if device_known then Ret (false, 0)
  else if ip_match then Ret (true, 1#2)
  else Ret (true, 9#10).

Definition check_device_anomaly (tx : Transaction) (c : Customer) : bool * Q :=
  catch_detector (check_device_body tx c).

(** [_check_transaction_velocity], body of the [try]; [txns] is the
    transactions collection, or the error raised when querying it. *)
Definition check_velocity_body (now : Z) (txns : Exc (list TxnRecord))
  (tx : Transaction) (customer_id : string) : Exc (bool * Q) :=
  current_time <- match tx_timestamp tx with
                  | TsDate t => Ret t
                  | TsStr str => fromisoformat str
                  | TsMissing => Ret now
                  end ;;
  let start_time := (current_time - VELOCITY_TIME_WINDOW_MINUTES * 60)%Z in
  recs <- txns ;;
  let recent := filter (fun r => String.eqb (t_customer_id r) customer_id &&
                                 Z.leb start_time (t_timestamp r) &&
                                 Z.ltb (t_timestamp r) current_time) recs in
  let transaction_count := List.length recent in
  let is_anomalous := Nat.leb VELOCITY_THRESHOLD transaction_count in
  let risk_score := py_min 1 (inject_Z (Z.of_nat transaction_count) /
                              (inject_Z (Z.of_nat VELOCITY_THRESHOLD) * (3#2))) in
  Ret (is_anomalous, risk_score).

Definition check_transaction_velocity (now : Z) (txns : Exc (list TxnRecord))
  (tx : Transaction) (customer_id : string) : bool * Q :=
  catch_detector (check_velocity_body now txns tx customer_id).

(** ** Customer lookup in [evaluate_transaction] *)

Definition is_hex_char (a : Ascii.ascii) : bool :=
  let n := Ascii.nat_of_ascii a in
  (Nat.leb 48 n && Nat.leb n 57) || (Nat.leb 65 n && Nat.leb n 70) ||
  (Nat.leb 97 n && Nat.leb n 102).

(** [ObjectId.is_valid] on a [str]: 24 hexadecimal digits. *)
Definition is_valid_oid (str : string) : bool :=
  Nat.eqb (String.length str) 24 && forallb is_hex_char (list_ascii_of_string str).

Definition cid_eqb (a b : CustomerId) : bool :=
  match a, b with
  | OId x, OId y => String.eqb x y
  | SId x, SId y => String.eqb x y
  | _, _ => false
  end.

(** By [_id] (as ObjectId when valid, then as string), then by
    [account_info.account_number], then the first customer of the
    collection as a fallback. *)
Definition find_customer (customers : list Customer) (customer_id : string)
  : option Customer :=
  let valid := is_valid_oid customer_id in
  let query_id := if valid then OId customer_id else SId customer_id in
  match find (fun c => cid_eqb (c_id c) query_id) customers with
  | Some c => Some c
  | None =>
      match (if valid then find (fun c => cid_eqb (c_id c) (SId customer_id)) customers
             else None) with
      | Some c => Some c
      | None =>
          let by_account :=
            find (fun c => match c_account_number c with
                           | Some a => String.eqb a customer_id
                           | None => false
                           end) customers in
          match customers with
          | c0 :: _ => match by_account with Some c => Some c | None => Some c0 end
          | [] => by_account
          end
      end
  end.

(** The lookup inside the [try] of [evaluate_transaction]: when the
    customers collection cannot be queried, the first [find_one] raises,
    the [except] only logs, and [customer] stays [None]. *)
Definition lookup_customer (customers : Exc (list Customer)) (customer_id : string)
  : option Customer :=
  match customers with
  | Ret cs => find_customer cs customer_id
  | Raise _ => None
  end.

(** ** Aggregation *)

Definition positive_or_zero (r : Q) : Q := if Qltb 0 r then r else 0.

(** [_calculate_risk_score] *)
Definition calculate_risk_score (amount_risk location_risk device_risk
  velocity_risk pattern_risk customer_base_risk : Q) : Q :=
  let transaction_weighted_score :=
    amount_risk * WEIGHT_AMOUNT + location_risk * WEIGHT_LOCATION +
    device_risk * WEIGHT_DEVICE + velocity_risk * WEIGHT_VELOCITY +
    pattern_risk * WEIGHT_PATTERN in
  let transaction_risk := transaction_weighted_score * 100 in
  let max_possible_single_risk :=
    py_max (py_max (py_max (py_max (positive_or_zero amount_risk)
                                   (positive_or_zero location_risk))
                           (positive_or_zero device_risk))
                   (positive_or_zero velocity_risk))
           (positive_or_zero pattern_risk) * 100 in
  let combined_risk :=
    if Qleb 80 max_possible_single_risk then
      transaction_risk * (1#2) + max_possible_single_risk * (3#10) +
      customer_base_risk * (2#10)
    else transaction_risk * (7#10) + customer_base_risk * (3#10) in
  py_min combined_risk 100.

(** [_determine_risk_level] *)
Definition determine_risk_level (risk_score : Q) : string :=
  if Qltb risk_score 35 then "low"
  else if Qltb risk_score 55 then "medium"
  else "high".

Record Diagnostics := mkDiagnostics {
  customer_base_risk : Q;
  factor_amount : Q;
  factor_location : Q;
  factor_device : Q;
  factor_velocity : Q;
  factor_pattern : Q
}.

Record Assessment := mkAssessment {
  score : Q;
  level : string;
  flags : list string;
  transaction_type : string;
  diagnostics : option Diagnostics
}.

Definition flag_if (b : bool) (f : string) : list string := if b then [f] else [].

Definition risk_if (r : bool * Q) : Q := if fst r then snd r else 0.

Definition factor_if (r : bool * Q) : Q := if fst r then round2 (snd r * 100) else 0.

(** The part of [evaluate_transaction] after the customer is found: the
    detector results, the customer's baseline risk, the assessment.
    Pattern matching is skipped ([pattern_anomaly = False]). The
    fire-and-forget profile update on [high] does not affect the result. *)
Definition assess (amount location device velocity : bool * Q)
  (customer_risk_score : Q) : Assessment :=
  let pattern := (false, 0) in
  let risk_score := calculate_risk_score (risk_if amount) (risk_if location)
                      (risk_if device) (risk_if velocity) (risk_if pattern)
                      customer_risk_score in
  let risk_level := determine_risk_level risk_score in
  let ttype := if String.eqb risk_level "high" then "fraudulent"
               else if String.eqb risk_level "medium" then "suspicious"
               else "legitimate" in
  {| score := round2 risk_score;
     level := risk_level;
     flags := flag_if (fst amount) "unusual_amount" ++
              flag_if (fst location) "unexpected_location" ++
              flag_if (fst device) "unknown_device" ++
              flag_if (fst velocity) "velocity_alert";
     transaction_type := ttype;
     diagnostics := Some {| customer_base_risk := round2 customer_risk_score;
                            factor_amount := factor_if amount;
                            factor_location := factor_if location;
                            factor_device := factor_if device;
                            factor_velocity := factor_if velocity;
                            factor_pattern := factor_if pattern |} |}%list.

Definition customer_risk_score (c : Customer) : Q :=
  match c_overall_risk_score c with Some q => q | None => 0 end.

Definition missing_customer_reference : Assessment :=
  {| score := 50; level := "medium"; flags := ["missing_customer_reference"];
     transaction_type := "suspicious"; diagnostics := None |}.

Definition customer_not_found : Assessment :=
  {| score := 70; level := "high"; flags := ["customer_not_found"];
     transaction_type := "suspicious"; diagnostics := None |}.

(** [evaluate_transaction], over the customers collection (or its query
    error), the transactions collection (or its query error) and the
    clock. *)
Definition evaluate_transaction (now : Z) (customers : Exc (list Customer))
  (txns : Exc (list TxnRecord)) (tx : Transaction) : Assessment :=
  match tx_customer_id tx with
  | None => missing_customer_reference
  | Some customer_id =>
      if String.eqb customer_id "" then missing_customer_reference else
      match lookup_customer customers customer_id with
      | None => customer_not_found
      | Some c =>
          assess (check_amount_anomaly tx c) (check_location_anomaly tx c)
                 (check_device_anomaly tx c)
                 (check_transaction_velocity now txns tx customer_id)
                 (customer_risk_score c)
      end
  end.

End Detectors.

(** ** [find_similar_transactions]: the similarity risk score *)

(** A neighbour returned by the vector search ([None]: field absent). *)
Record Neighbor := mkNeighbor {
  n_score : option Q;           (* vectorSearchScore *)
  n_level : option string;      (* risk_assessment.level *)
  n_risk_score : option Q;      (* risk_assessment.score, 0-100 *)
  n_type : option string;       (* risk_assessment.transaction_type *)
  n_flags : nat;                (* len(risk_assessment.flags) *)
  n_amount : Q                  (* amount, default 0 *)
}.

Definition get_or {A} (o : option A) (d : A) : A :=
  match o with Some x => x | None => d end.

Definition position_weight (idx : nat) : Q :=
  if Nat.ltb idx 5 then 1
  else py_max (1#2) (1 - inject_Z (Z.of_nat idx - 5) * (5#100)).

Definition amount_similarity (current_amount similar_amount : Q) : Q :=
  if Qltb 0 similar_amount && Qltb 0 current_amount then
    let amount_ratio := py_min current_amount similar_amount /
                        py_max current_amount similar_amount in
    if Qltb (95#100) amount_ratio then 1
    else if Qltb (8#10) amount_ratio then 8#10
    else if Qltb (5#10) amount_ratio then 6#10
    else 4#10
  else 1.

Record ScoreEntry := mkScoreEntry {
  se_similarity : Q;
  se_risk_score : Q;
  se_flags : nat
}.

Definition score_entry (current_amount : Q) (idx : nat) (t : Neighbor) : ScoreEntry :=
  let similarity := get_or (n_score t) (1#2) in
  let weighted_similarity := similarity * position_weight idx in
  let final_similarity := weighted_similarity * (7#10) +
                          amount_similarity current_amount (n_amount t) * (3#10) in
  {| se_similarity := final_similarity;
     se_risk_score := get_or (n_risk_score t) 50 / 100;
     se_flags := n_flags t |}.

Inductive Bucket := HighRisk | MediumRisk | LowRisk.

Definition bucket_of (t : Neighbor) : Bucket :=
  let risk_level := get_or (n_level t) "unknown" in
  let ttype := get_or (n_type t) "unknown" in
  if String.eqb risk_level "high" || String.eqb ttype "fraudulent" then HighRisk
  else if String.eqb risk_level "medium" || String.eqb ttype "suspicious" then MediumRisk
  else if String.eqb risk_level "low" || String.eqb ttype "legitimate" then LowRisk
  else MediumRisk.

Definition bucket_eqb (a b : Bucket) : bool :=
  match a, b with
  | HighRisk, HighRisk | MediumRisk, MediumRisk | LowRisk, LowRisk => true
  | _, _ => false
  end.

(** [for idx, t in enumerate(similar_transactions)], keeping the entries
    of one bucket in order. *)
Fixpoint bucket_entries (b : Bucket) (current_amount : Q) (idx : nat)
  (ts : list Neighbor) : list ScoreEntry :=
  match ts with
  | [] => []
  | t :: rest =>
      let tail := bucket_entries b current_amount (S idx) rest in
      if bucket_eqb (bucket_of t) b then score_entry current_amount idx t :: tail
      else tail
  end.

(** [(weighted_sum, total_weight)] with [weight = similarity * (1 + flags * k)]. *)
Definition weighted_sums (k : Q) (es : list ScoreEntry) : Q * Q :=
  fold_left (fun acc e =>
               let weight := se_similarity e * (1 + inject_Z (Z.of_nat (se_flags e)) * k) in
               (fst acc + se_risk_score e * weight, snd acc + weight))
            es (0, 0).

Definition high_risk_score (high : list ScoreEntry) : Q :=
  let (weighted_sum, total_weight) := weighted_sums (1#10) high in
  let high_risk_factor := py_min 1 (weighted_sum / py_max 1 total_weight) in
  let high_risk_boost := py_min (2#10) (inject_Z (Z.of_nat (List.length high)) * (5#100)) in
  py_min 1 (high_risk_factor + high_risk_boost).

Definition sum_similarity (es : list ScoreEntry) : Q :=
  fold_left (fun acc e => acc + se_similarity e) es 0.

Section Similarity.

(** Python's [x ** 1.5] (a complex number, hence a later [TypeError],
    for negative [x]). *)
Variable pow_1_5 : Q -> Exc Q.

Definition similarity_risk_score (current_amount : Q) (ts : list Neighbor) : Exc Q :=
  let high := bucket_entries HighRisk current_amount 0 ts in
  let medium := bucket_entries MediumRisk current_amount 0 ts in
  let low := bucket_entries LowRisk current_amount 0 ts in
  r <- (match high, low, medium with
        | _ :: _, _, _ => Ret (high_risk_score high)
        | [], _ :: _, [] =>
            let avg_similarity :=
              sum_similarity low / inject_Z (Z.of_nat (List.length low)) in
            p <- pow_1_5 avg_similarity ;;
            Ret (py_max (5#100) (1 - p))
        | _, _, _ =>
            let all_scores := (high ++ medium ++ low)%list in
            match all_scores with
            | [] => Ret (1#2)
            | _ :: _ =>
                let (weighted_sum, total_weight) := weighted_sums (2#10) all_scores in
                if Qltb 0 total_weight then Ret (weighted_sum / total_weight)
                else Ret (1#2)
            end
        end) ;;
  Ret (py_max 0 (py_min 1 r)).

(** The similarity risk returned by [find_similar_transactions]: [search]
    is the vector search result (or the error raised while embedding or
    searching), [total_count] the size of the transactions collection. *)
Definition find_similar_risk (search : Exc (list Neighbor)) (total_count : nat)
  (current_amount : Q) : Q :=
  match search with
  | Raise _ => 1#2
  | Ret [] => if Nat.ltb 10 total_count then 3#4 else 1#2
  | Ret ts =>
      match similarity_risk_score current_amount ts with
      | Ret r => r
      | Raise _ => 1#2
      end
  end.

End Similarity.

(** ** [_update_customer_risk_profile] *)

(** A document of the customers collection, with the two fields of
    [risk_profile] that the update writes besides [overall_risk_score]
    ([None]: field absent). *)
Record CustomerDoc := mkCustomerDoc {
  cd_customer : Customer;
  cd_risk_factors : option (list string);     (* risk_profile.risk_factors *)
  cd_last_risk_assessment : option Z          (* risk_profile.last_risk_assessment *)
}.

(** [$addToSet: {$each: flags}]: each value not yet in the array is
    appended; an absent field starts as an empty array. *)
Definition add_to_set (arr : option (list string)) (each : list string) : list string :=
  fold_left (fun acc f => if existsb (String.eqb f) acc then acc else (acc ++ [f])%list)
            each (get_or arr []).

Definition set_overall_risk_score (c : Customer) (score : option Q) : Customer :=
  {| c_id := c_id c; c_account_number := c_account_number c;
     c_avg_amount := c_avg_amount c; c_std_amount := c_std_amount c;
     c_usual_locations := c_usual_locations c; c_devices := c_devices c;
     c_overall_risk_score := score |}.

(** The update document: [$set] of [last_risk_assessment], [$addToSet]
    of the flags, [$inc] of [overall_risk_score] by [len(flags) * 2.5]
    (an absent field is set to the increment). *)
Definition apply_profile_update (flags : list string) (now : Z) (d : CustomerDoc)
  : CustomerDoc :=
  {| cd_customer :=
       set_overall_risk_score (cd_customer d)
         (Some (get_or (c_overall_risk_score (cd_customer d)) 0 +
                inject_Z (Z.of_nat (List.length flags)) * (5#2)));
     cd_risk_factors := Some (add_to_set (cd_risk_factors d) flags);
     cd_last_risk_assessment := Some now |}.

(** [update_one({"_id": q}, ...)]: the first document with that [_id]. *)
Fixpoint update_first_doc (q : CustomerId) (f : CustomerDoc -> CustomerDoc)
  (docs : list CustomerDoc) : list CustomerDoc :=
  match docs with
  | [] => []
  | d :: rest =>
      if cid_eqb (c_id (cd_customer d)) q then f d :: rest
      else d :: update_first_doc q f rest
  end.

Definition doc_with_id (q : CustomerId) (d : CustomerDoc) : bool :=
  cid_eqb (c_id (cd_customer d)) q.

Definition doc_with_account (customer_id : string) (d : CustomerDoc) : bool :=
  match c_account_number (cd_customer d) with
  | Some a => String.eqb a customer_id
  | None => false
  end.

(** [_update_customer_risk_profile]: the customer is looked up as in
    [evaluate_transaction]; [query_id] is replaced by the [_id] of the
    found customer only on the last fallback (the first customer of the
    collection). *)
Definition update_customer_risk_profile (customer_id : string) (flags : list string)
  (now : Z) (docs : list CustomerDoc) : list CustomerDoc :=
  let valid := is_valid_oid customer_id in
  let query_id := if valid then OId customer_id else SId customer_id in
  let target :=
    match find (doc_with_id query_id) docs with
    | Some _ => Some query_id
    | None =>
        match (if valid then find (doc_with_id (SId customer_id)) docs else None) with
        | Some _ => Some query_id
        | None =>
            match find (doc_with_account customer_id) docs with
            | Some _ => Some query_id
            | None =>
                match docs with
                | d0 :: _ => Some (c_id (cd_customer d0))
                | [] => None
                end
            end
        end
    end in
  match target with
  | Some q => update_first_doc q (apply_profile_update flags now) docs
  | None => docs
  end.

(** ** [_check_pattern_match] *)

Definition SIMILARITY_THRESHOLD : Q := 3#4.

(** A fraud pattern: its [indicators] (default [[]]) and, in a vector
    search result, its [vectorSearchScore]. *)
Record FraudPattern := mkFraudPattern {
  fp_indicators : list string;
  fp_score : option Q
}.

(** [sum(1 for flag in flags if flag in indicators)] *)
Definition count_matches (flags indicators : list string) : nat :=
  List.length (filter (fun f => existsb (String.eqb f) indicators) flags).

Definition max_match_percentage (flags : list string) (patterns : list FraudPattern) : Q :=
  fold_left (fun acc p =>
               match fp_indicators p with
               | [] => acc
               | indicators =>
                   py_max acc (inject_Z (Z.of_nat (count_matches flags indicators)) /
                               inject_Z (Z.of_nat (List.length indicators)))
               end) patterns 0.

(** [find({"indicators": {"$in": flags}})] *)
Definition indicator_query (flags : list string) (p : FraudPattern) : bool :=
  existsb (fun i => existsb (String.eqb i) flags) (fp_indicators p).

(** The body of the [try]: [embedding] is the result of [get_embedding]
    on the description, [has_vector_index] whether an index named
    [vector_*] exists, [vector_search] the [$vectorSearch] pipeline on an
    embedding, [patterns] the fraud patterns collection. *)
Definition check_pattern_body (embedding : Exc (list Q)) (has_vector_index : bool)
  (vector_search : list Q -> Exc (list FraudPattern)) (patterns : list FraudPattern)
  (flags : list string) : Exc (bool * Q) :=
  e <- embedding ;;
  matching_patterns <-
    (if has_vector_index then vector_search e
     else Ret (firstn 3 (filter (indicator_query flags) patterns))) ;;
  match matching_patterns with
  | [] => Ret (false, 0)
  | p0 :: _ =>
      match (if has_vector_index then fp_score p0 else None) with
      | Some highest_score =>
          Ret (Qltb SIMILARITY_THRESHOLD highest_score, py_min 1 highest_score)
      | None =>
          let m := max_match_percentage flags matching_patterns in
          Ret (Qltb (1#2) m, m)
      end
  end.

Definition check_pattern_match (embedding : Exc (list Q)) (has_vector_index : bool)
  (vector_search : list Q -> Exc (list FraudPattern)) (patterns : list FraudPattern)
  (flags : list string) : bool * Q :=
  catch_detector (check_pattern_body embedding has_vector_index vector_search patterns flags).

End FraudDetection.

(* ------------------------------------------------------------------------- *)
(** * Reference descriptions used in the statements *)

Module Lifecycle.
Import ModelManagement.

(** The store after a successful activation of the document with id [i]:
    [i] is [active], every other active document is [inactive]. *)
Definition activated (i : nat) (now : Z) (d : RiskModel) : RiskModel :=
  if Nat.eqb (_id d) i then set_status "active" now d
  else if is_active d then set_status "inactive" now d else d.

Definition set_by_id (i : nat) (st : string) (now : Z) (d : RiskModel) : RiskModel :=
  if Nat.eqb (_id d) i then set_status st now d else d.

End Lifecycle.

Module Aggregation.

(** The aggregate score as the specification words it: the default
    weights, [maxFactor = 100 * max(risk_i)], the two combinations, and a
    clamp to [0, 100]. The pattern risk is 0. *)
Definition aggregate_spec (amount location device velocity customerBase : Q) : Q :=
  let pattern := 0 in
  let transactionRisk :=
    100 * (amount * (1#4) + location * (1#4) + device * (1#5) +
           velocity * (3#20) + pattern * (3#20)) in
  let maxFactor := 100 * Qmax (Qmax (Qmax (Qmax amount location) device) velocity) pattern in
  let combined :=
    if Qle_bool 80 maxFactor then
      (1#2) * transactionRisk + (3#10) * maxFactor + (2#10) * customerBase
    else (7#10) * transactionRisk + (3#10) * customerBase in
  Qmax 0 (Qmin combined 100).

End Aggregation.

Module DetectorMetrics.
Import FraudDetection.
Open Scope Q_scope.

(** The amount detector's metrics on a numeric, non-degenerate history
    ([avg > 0], [std > 0]): the z-score [|amount - avg| / std] and the
    ratio [amount / avg]. *)
Definition amount_metrics (tx : Transaction) (c : Customer) : option (Q * Q) :=
  match tx_amount tx, c_avg_amount c, c_std_amount c with
  | PNum a, PNum avg, PNum std =>
      if Qltb 0 avg && Qltb 0 std then Some (py_abs (a - avg) / std, a / avg) else None
  | _, _, _ => None
  end.

(** The location detector's metric, when it is computed (two transaction
    coordinates, a non-empty list of usual locations): the minimum
    distance to a usual location ([None]: infinite, no usable location). *)
Definition location_metric (haversine : Q -> Q -> Q -> Q -> Exc Q)
  (tx : Transaction) (c : Customer) : option (Exc (option Q)) :=
  let tc := coords_or_default (tx_coordinates tx) in
  if negb (Nat.eqb (List.length tc) 2) then None else
  match c_usual_locations c with
  | [] => None
  | locs => Some (min_distance haversine tc locs None)
  end.

(** Order on distances extended with [inf]. *)
Definition dist_le (m1 m2 : option Q) : Prop :=
  match m1, m2 with
  | _, None => True
  | None, Some _ => False
  | Some x, Some y => x <= y
  end.

(** The velocity detector's metric: the number of the customer's stored
    transactions in the window [[t - 60 min, t)]. *)
Definition window_count (fromisoformat : string -> Exc Z) (now : Z)
  (txns : Exc (list TxnRecord)) (tx : Transaction) (customer_id : string) : Exc nat :=
  t <- match tx_timestamp tx with
       | TsDate t => Ret t
       | TsStr str => fromisoformat str
       | TsMissing => Ret now
       end ;;
  recs <- txns ;;
  Ret (List.length (filter (fun r => String.eqb (t_customer_id r) customer_id &&
                                     Z.leb (t - 3600) (t_timestamp r) &&
                                     Z.ltb (t_timestamp r) t) recs)).

End DetectorMetrics.

(* ------------------------------------------------------------------------- *)
(** * The similarity risk of a non-empty high-risk bucket, as the spec words it *)

Module SimilaritySpec.
Import FraudDetection.
Open Scope Q_scope.

(** The weighted mean of the entries' risk scores, with weight
    [similarity * (1 + 0.1 * flags)]. *)
Definition weighted_mean (es : list ScoreEntry) : Q :=
  let w e := se_similarity e * (1 + inject_Z (Z.of_nat (se_flags e)) * (1#10)) in
  fold_right (fun e acc => se_risk_score e * w e + acc) 0 es /
  fold_right (fun e acc => w e + acc) 0 es.

(** The weighted mean plus [min(0.2, 0.05 * |high|)], clamped to 1. *)
Definition spec_high_risk_score (current_amount : Q) (ts : list Neighbor) : Q :=
  let high := bucket_entries HighRisk current_amount 0 ts in
  Qmin 1 (weighted_mean high +
          Qmin (2#10) (inject_Z (Z.of_nat (List.length high)) * (5#100))).

End SimilaritySpec.

(* ------------------------------------------------------------------------- *)
(** * Concrete stores and inputs *)

Module ModelManagementFixtures.
Import ModelManagement.

(** A concrete store: one archived version of model ["m"]. *)
Definition archived_m : RiskModel :=
  mkRiskModel 1 "m" 1 "archived" 0 0 "fraud model" [] [] [] performance_unset.

(** A concrete store: version 1 of ["m"] active, version 2 a draft. *)
Definition demo_v1 : RiskModel :=
  mkRiskModel 1 "m" 1 "active" 0 0 "baseline" [("amount", 1#4)] [] [] performance_unset.
Definition demo_v2 : RiskModel :=
  mkRiskModel 2 "m" 2 "draft" 1 1 "candidate" [("amount", 3#10)] [] [] performance_unset.
Definition demo_store : Store := [demo_v1; demo_v2].

(** Another model, ["n"], active. *)
Definition other_active : RiskModel :=
  mkRiskModel 3 "n" 1 "active" 0 0 "other" [] [] [] performance_unset.

(** A model with a ["flag"] threshold of 60 and three evaluations of it:
    a flagged legitimate one, an unflagged fraud, one without outcome. *)
Definition flag_model : RiskModel :=
  mkRiskModel 1 "m" 1 "active" 0 0 "flagged" [] [("flag", 60)] [] performance_unset.

Definition usage_fp : UsageRecord :=
  mkUsageRecord "m" 1 "t1" 100 70 ["unusual_amount"] (Some "legitimate") None.
Definition usage_fn : UsageRecord :=
  mkUsageRecord "m" 1 "t2" 100 40 ["unusual_amount"; "velocity_alert"] (Some "fraud") None.
Definition usage_open : UsageRecord :=
  mkUsageRecord "m" 1 "t3" 100 50 [] None None.
Definition demo_usage : list UsageRecord := [usage_fp; usage_fn; usage_open].

(** The same model without a ["flag"] threshold. *)
Definition noflag_model : RiskModel :=
  mkRiskModel 1 "m" 1 "active" 0 0 "unflagged" [] [] [] performance_unset.

(** A second flagged model, ["n"], with one evaluation. *)
Definition flag_model_n : RiskModel :=
  mkRiskModel 4 "n" 1 "active" 0 0 "flagged too" [] [("flag", 50)] [] performance_unset.
Definition usage_n : UsageRecord :=
  mkUsageRecord "n" 1 "t4" 150 55 ["new_device"] (Some "legitimate") None.

(** A metadata-only update: description and thresholds. *)
Definition demo_update : RiskModelUpdate :=
  mkRiskModelUpdate (Some "tuned") None (Some [("high", 55#1)]) None None.

(** An update that only asks for status ["archived"]. *)
Definition archive_update : RiskModelUpdate :=
  mkRiskModelUpdate None None None None (Some "archived").

(** A creation request for model ["m"]. *)
Definition create_m : RiskModelCreate :=
  mkRiskModelCreate "m" "retrained" [("amount", 7#20)] [] [].

End ModelManagementFixtures.

Module FraudDetectionFixtures.
Import FraudDetection.
Open Scope Q_scope.


(** A stored profile with a usual history, and a transaction of another
    customer id. *)
Definition profile_c1 : Customer :=
  mkCustomer (SId "c1") (Some "ACC-1") (PNum 100) (PNum 10) [] [] None.


Definition no_distance : Q -> Q -> Q -> Q -> Exc Q := fun _ _ _ _ => Ret 0.
Definition no_iso : string -> Exc Z := fun _ => Raise "ValueError".

(** A transaction of ["c1"] for 700 (seven times its average). *)
Definition tx_ratio7 : Transaction :=
  mkTransaction (Some "c1") (PNum 700) None "" "" TsMissing.

(** A timestamped transaction of ["c1"], and a transactions collection
    that cannot be queried. *)
Definition tx_c1 : Transaction :=
  mkTransaction (Some "c1") (PNum 100) None "" "" (TsDate 0).

Definition txns_unreachable : Exc (list TxnRecord) := Raise "ServerSelectionTimeoutError".

(** One high-risk neighbour: vector score 0.5, risk score 80, no flags,
    the same amount as the current transaction. *)
Definition high_neighbor : Neighbor :=
  {| n_score := Some (1#2); n_level := Some "high"; n_risk_score := Some 80;
     n_type := None; n_flags := 0; n_amount := 100 |}.

(** Two customer documents: ["c1"] without a risk profile, ["c2"] with
    account number ["ACC-2"], a score of 10 and one risk factor. *)
Definition profile_c2 : Customer :=
  mkCustomer (SId "c2") (Some "ACC-2") (PNum 100) (PNum 10) [] [] (Some 10).
Definition doc_c1 : CustomerDoc := mkCustomerDoc profile_c1 None None.
Definition doc_c2 : CustomerDoc := mkCustomerDoc profile_c2 (Some ["unusual_amount"]) None.

(** Two fraud patterns, an embedding and a vector search that finds
    nothing. *)
Definition pattern_velocity : FraudPattern :=
  mkFraudPattern ["unusual_amount"; "velocity_alert"] None.
Definition pattern_takeover : FraudPattern :=
  mkFraudPattern ["unknown_device"; "unexpected_location"; "velocity_alert"] None.
Definition some_embedding : Exc (list Q) := Ret [1#2; 1#4].
Definition empty_search : list Q -> Exc (list FraudPattern) := fun _ => Ret [].

End FraudDetectionFixtures.

(* ------------------------------------------------------------------------- *)
(** * Proofs: risk-model lifecycle *)

Module ModelManagementProofs.
Import ModelManagement Lifecycle ModelManagementFixtures.

Lemma find_one_in q s m : find_one q s = Some m -> In m s /\ q m = true.
Proof. apply find_some. Qed.

Lemma id_unique s d m :
  NoDup (map _id s) -> In d s -> In m s -> _id d = _id m -> d = m.
Proof.
  induction s as [|x rest IH]; simpl; intros Hnd Hd Hm Heq; [contradiction|].
  inversion Hnd as [|? ? Hnotin Hnd']; subst.
  destruct Hd as [<-|Hd], Hm as [<-|Hm]; auto.
  - exfalso. apply Hnotin. rewrite Heq. apply in_map. exact Hm.
  - exfalso. apply Hnotin. rewrite <- Heq. apply in_map. exact Hd.
Qed.

Lemma update_one_status_map i st now s m :
  NoDup (map _id s) -> In m s -> _id m = i ->
  update_one_status i st now s =
  (map (set_by_id i st now) s,
   if String.eqb (status m) st && Z.eqb (updatedAt m) now then 0%nat else 1%nat).
Proof.
  induction s as [|x rest IH]; simpl; intros Hnd Hm Hid; [contradiction|].
  inversion Hnd as [|? ? Hnotin Hnd']; subst.
  unfold set_by_id at 1. destruct (Nat.eqb_spec (_id x) (_id m)) as [E|E].
  - assert (x = m) by (apply (id_unique (x :: rest)); simpl; auto).
    subst x. f_equal. f_equal. symmetry.
    rewrite <- (map_id rest) at 2.
    apply map_ext_in. intros d Hd. unfold set_by_id.
    destruct (Nat.eqb_spec (_id d) (_id m)) as [E'|]; auto.
    exfalso. apply Hnotin. rewrite <- E'. apply in_map. exact Hd.
  - destruct Hm as [->|Hm]; [contradiction|].
    rewrite (IH Hnd' Hm eq_refl). reflexivity.
Qed.

Lemma set_status_id st now d : _id (set_status st now d) = _id d.
Proof. reflexivity. Qed.

Lemma map_deactivate_ids now s :
  map _id (update_many_deactivate now s) = map _id s.
Proof.
  unfold update_many_deactivate. rewrite map_map.
  apply map_ext. intros d. destruct (is_active d); reflexivity.
Qed.

Lemma in_deactivate now s m :
  In m s -> is_active m = false -> In m (update_many_deactivate now s).
Proof.
  intros Hin Ha. unfold update_many_deactivate.
  apply in_map_iff. exists m. rewrite Ha. auto.
Qed.

Lemma activated_only_target i now s :
  (forall d, In d s -> _id d <> i) -> filter is_active (map (activated i now) s) = [].
Proof.
  induction s as [|x rest IH]; simpl; intros H; [reflexivity|].
  unfold activated at 1.
  destruct (Nat.eqb_spec (_id x) i) as [E|E]; [exfalso; exact (H x (or_introl eq_refl) E)|].
  rewrite IH by auto.
  destruct (is_active x) eqn:Ha; [reflexivity|]. rewrite Ha. reflexivity.
Qed.

Lemma activated_filter now s m :
  NoDup (map _id s) -> In m s ->
  filter is_active (map (activated (_id m) now) s) = [set_status "active" now m].
Proof.
  induction s as [|x rest IH]; simpl; intros Hnd Hm; [contradiction|].
  inversion Hnd as [|? ? Hnotin Hnd']; subst.
  destruct (Nat.eqb_spec (_id x) (_id m)) as [E|E].
  - assert (x = m) by (apply (id_unique (x :: rest)); simpl; auto). subst x.
    replace (activated (_id m) now m) with (set_status "active" now m)
      by (unfold activated; rewrite Nat.eqb_refl; reflexivity).
    simpl. rewrite activated_only_target; [reflexivity|].
    intros d Hd E'. apply Hnotin. rewrite <- E'. apply in_map. exact Hd.
  - destruct Hm as [->|Hm]; [contradiction|].
    rewrite <- (IH Hnd' Hm). unfold activated at 1.
    rewrite (proj2 (Nat.eqb_neq _ _) E).
    destruct (is_active x) eqn:Ha; [reflexivity|]. rewrite Ha. reflexivity.
Qed.

Lemma deactivate_then_activate now s i :
  map (set_by_id i "active" now) (update_many_deactivate now s) =
  map (activated i now) s.
Proof.
  unfold update_many_deactivate. rewrite map_map.
  apply map_ext. intros d. unfold set_by_id, activated.
  destruct (is_active d); simpl; destruct (Nat.eqb (_id d) i); reflexivity.
Qed.

Lemma active_count_pos s m :
  In m s -> is_active m = true -> (1 <= count_documents is_active s)%nat.
Proof.
  intros Hin Ha. unfold count_documents.
  assert (Hf : In m (filter is_active s)) by (apply filter_In; auto).
  destruct (filter is_active s); simpl in *; [contradiction | lia].
Qed.

Lemma fresh_id_gt s d : In d s -> (_id d < fresh_id s)%nat.
Proof.
  unfold fresh_id. induction s as [|x rest IH]; simpl; intros H; [contradiction|].
  destruct H as [->|H]; [lia|]. specialize (IH H). lia.
Qed.

(** C1: for a store with unique [_id]s and a target found by
    [find_one], activation of an [archived] target is rejected and leaves
    the store as it was; an [active] target is a successful no-op;
    otherwise the call succeeds, every previously active document becomes
    [inactive], the target becomes [active], and exactly one document of
    the whole store is [active]: the target. *)
Theorem activate_leaves_one_active model_id v now s m :
  NoDup (map _id s) ->
  find_one (id_version_query model_id v) s = Some m ->
  (status m = "archived" ->
     activate_risk_model model_id v now s =
       (HTTPException 400 "Cannot activate an archived model", s)) /\
  (status m = "active" ->
     activate_risk_model model_id v now s =
       (Ok ("Model " ++ model_id ++ " is already active"), s)) /\
  (status m <> "active" -> status m <> "archived" ->
     let (r, s') := activate_risk_model model_id v now s in
     r = Ok ("Model " ++ model_id ++ " activated successfully") /\
     s' = map (activated (_id m) now) s /\
     filter is_active s' = [set_status "active" now m] /\
     count_documents is_active s' = 1%nat).
Proof.
  intros Hnd Hf. destruct (find_one_in _ _ _ Hf) as [Hin _].
  unfold activate_risk_model. rewrite Hf.
  split; [|split].
  - intros Hs. rewrite Hs. reflexivity.
  - intros Hs. rewrite Hs. reflexivity.
  - intros Hna Hnar.
    rewrite (proj2 (String.eqb_neq _ _) Hna), (proj2 (String.eqb_neq _ _) Hnar).
    assert (Ha : is_active m = false) by (apply String.eqb_neq; exact Hna).
    rewrite (update_one_status_map (_id m) "active" now
               (update_many_deactivate now s) m);
      [| rewrite map_deactivate_ids; exact Hnd | apply in_deactivate; auto | reflexivity].
    rewrite (proj2 (String.eqb_neq _ _) Hna). simpl.
    rewrite deactivate_then_activate.
    split; [reflexivity|]. split; [reflexivity|].
    unfold count_documents. rewrite activated_filter by auto.
    split; reflexivity.
Qed.

(** C6: when the target is the sole [active] document of the store, the
    archive call fails and the store is unchanged; otherwise the target's
    status becomes [archived] (with a fresh [updatedAt]), no other
    document changes, and the call succeeds whenever the clock has moved
    since the target's last update. *)
Theorem archive_sole_active_rejected model_id v now s m :
  NoDup (map _id s) ->
  find_one (id_version_query model_id v) s = Some m ->
  (is_active m = true -> count_documents is_active s = 1%nat ->
     archive_risk_model model_id v now s =
       (HTTPException 400
          "Cannot archive the only active model. Activate another model first.", s)) /\
  (~ (is_active m = true /\ count_documents is_active s = 1%nat) ->
     snd (archive_risk_model model_id v now s) = map (set_by_id (_id m) "archived" now) s /\
     (updatedAt m <> now -> is_ok (fst (archive_risk_model model_id v now s)) = true)).
Proof.
  intros Hnd Hf. destruct (find_one_in _ _ _ Hf) as [Hin _].
  unfold archive_risk_model. rewrite Hf. split.
  - intros Ha Hc. unfold is_active in Ha. rewrite Ha, Hc. reflexivity.
  - intros Hnot.
    assert (Hg : (String.eqb (status m) "active" &&
                  Nat.leb (count_documents is_active s) 1) = false).
    { destruct (String.eqb (status m) "active") eqn:Ha; [|reflexivity]. simpl.
      pose proof (active_count_pos s m Hin Ha).
      apply Nat.leb_gt. destruct (Nat.eq_dec (count_documents is_active s) 1); [|lia].
      exfalso. apply Hnot. auto. }
    rewrite Hg.
    rewrite (update_one_status_map (_id m) "archived" now s m Hnd Hin eq_refl).
    destruct (String.eqb (status m) "archived" && Z.eqb (updatedAt m) now) eqn:E;
      simpl; (split; [reflexivity|]).
    + intros Hne. apply andb_true_iff in E. destruct E as [_ E].
      apply Z.eqb_eq in E. contradiction.
    + intros _. reflexivity.
Qed.

(** C7 (counterexample): archiving a model that is already archived is
    not rejected; it succeeds and rewrites the record's [updatedAt]. *)
Lemma double_archive_accepted :
  archive_risk_model "m" None 5 [archived_m] =
    (Ok "Model m archived successfully", [set_status "archived" 5 archived_m]) /\
  [set_status "archived" 5 archived_m] <> [archived_m].
Proof. split; [reflexivity | discriminate]. Qed.

(** C7 (amended): archiving an already-archived target is accepted: the
    call succeeds, the target stays [archived] and only its [updatedAt] is
    rewritten, when the clock has moved since its last update. *)
Theorem double_archive_refreshes model_id v now s m :
  NoDup (map _id s) ->
  find_one (id_version_query model_id v) s = Some m ->
  status m = "archived" -> updatedAt m <> now ->
  archive_risk_model model_id v now s =
    (Ok ("Model " ++ model_id ++ " archived successfully"),
     map (set_by_id (_id m) "archived" now) s).
Proof.
  intros Hnd Hf Hs Ht. destruct (find_one_in _ _ _ Hf) as [Hin _].
  unfold archive_risk_model. rewrite Hf, Hs. simpl.
  rewrite (update_one_status_map (_id m) "archived" now s m Hnd Hin eq_refl).
  rewrite Hs, (proj2 (Z.eqb_neq _ _) Ht). reflexivity.
Qed.

(** C8: updating the latest non-archived version when it is [active]
    (and the request does not ask for [archived]) appends a new document
    and touches none of the stored ones: version + 1, status [draft],
    performance unset, the request's truthy fields applied and every
    other field carried over from the active version, under a fresh
    [_id]. *)
Theorem update_active_forks_draft model_id u now s m :
  find_one_latest (not_archived_query model_id) s = Some m ->
  status m = "active" ->
  u_status u <> Some "archived" ->
  let nd := with_id (fresh_id s) (fork_version m u now) in
  update_risk_model model_id u now s = (Ok nd, app s [nd]) /\
  (forall d, In d s -> _id d <> _id nd) /\
  version nd = (version m + 1)%Z /\
  status nd = "draft" /\
  performance nd = performance_unset /\
  modelId nd = modelId m /\
  createdAt nd = createdAt m /\
  description nd = override (truthy_str (u_description u)) (description m) /\
  weights nd = override (truthy_list (u_weights u)) (weights m) /\
  thresholds nd = override (truthy_list (u_thresholds u)) (thresholds m) /\
  riskFactors nd = override (truthy_list (u_riskFactors u)) (riskFactors m).
Proof.
  intros Hf Hs Hu nd.
  split.
  - unfold update_risk_model. rewrite Hf, Hs. simpl.
    destruct (u_status u) as [x|] eqn:Eu; [|reflexivity].
    destruct (String.eqb_spec x "archived") as [->|]; [contradiction|reflexivity].
  - split; [|repeat split; reflexivity].
    intros d Hd. pose proof (fresh_id_gt s d Hd). simpl. lia.
Qed.

Lemma demo_store_nodup : NoDup (map _id demo_store).
Proof. repeat constructor; simpl; lia. Qed.

Lemma activate_leaves_one_active_witness :
  let (r, s') := activate_risk_model "m" (Some 2%Z) 5 demo_store in
  r = Ok ("Model " ++ "m" ++ " activated successfully") /\
  s' = map (activated (_id demo_v2) 5) demo_store /\
  filter is_active s' = [set_status "active" 5 demo_v2] /\
  count_documents is_active s' = 1%nat.
Proof.
  assert (Hf : find_one (id_version_query "m" (Some 2%Z)) demo_store = Some demo_v2)
    by reflexivity.
  assert (Hna : status demo_v2 <> "active") by discriminate.
  assert (Hnar : status demo_v2 <> "archived") by discriminate.
  exact (proj2 (proj2 (activate_leaves_one_active "m" (Some 2%Z) 5 demo_store demo_v2
                         demo_store_nodup Hf)) Hna Hnar).
Defined.

Lemma archive_sole_active_rejected_witness :
  archive_risk_model "m" (Some 1%Z) 5 demo_store =
    (HTTPException 400
       "Cannot archive the only active model. Activate another model first.", demo_store).
Proof.
  assert (Hf : find_one (id_version_query "m" (Some 1%Z)) demo_store = Some demo_v1)
    by reflexivity.
  exact (proj1 (archive_sole_active_rejected "m" (Some 1%Z) 5 demo_store demo_v1
                  demo_store_nodup Hf) eq_refl eq_refl).
Defined.

Lemma double_archive_refreshes_witness :
  archive_risk_model "m" None 5 [archived_m] =
    (Ok ("Model " ++ "m" ++ " archived successfully"),
     map (set_by_id (_id archived_m) "archived" 5) [archived_m]).
Proof.
  assert (Hnd : NoDup (map _id [archived_m])) by (repeat constructor; simpl; lia).
  assert (Hf : find_one (id_version_query "m" None) [archived_m] = Some archived_m)
    by reflexivity.
  assert (Ht : updatedAt archived_m <> 5%Z) by discriminate.
  exact (double_archive_refreshes "m" None 5 [archived_m] archived_m Hnd Hf eq_refl Ht).
Defined.

Lemma update_active_forks_draft_witness :
  let nd := with_id (fresh_id [demo_v1]) (fork_version demo_v1 demo_update 9) in
  update_risk_model "m" demo_update 9 [demo_v1] = (Ok nd, app [demo_v1] [nd]) /\
  version nd = 2%Z /\ status nd = "draft".
Proof.
  assert (Hf : find_one_latest (not_archived_query "m") [demo_v1] = Some demo_v1)
    by reflexivity.
  assert (Hu : u_status demo_update <> Some "archived") by discriminate.
  destruct (update_active_forks_draft "m" demo_update 9 [demo_v1] demo_v1 Hf eq_refl Hu)
    as (H1 & _ & H3 & H4 & _).
  exact (conj H1 (conj H3 H4)).
Defined.

End ModelManagementProofs.

(* ------------------------------------------------------------------------- *)
(** * Proofs: the other model-management endpoints *)

Module ModelManagementExtraProofs.
Import ModelManagement Lifecycle ModelManagementFixtures.

(** ** Stores *)

Lemma in_store q s m : find_one q s = Some m -> In m s /\ q m = true.
Proof. apply find_some. Qed.

Lemma store_id_unique s d m :
  NoDup (map _id s) -> In d s -> In m s -> _id d = _id m -> d = m.
Proof.
  induction s as [|x rest IH]; simpl; intros Hnd Hd Hm Heq; [contradiction|].
  inversion Hnd as [|? ? Hnotin Hnd']; subst.
  destruct Hd as [<-|Hd], Hm as [<-|Hm]; auto.
  - exfalso. apply Hnotin. rewrite Heq. apply in_map. exact Hm.
  - exfalso. apply Hnotin. rewrite <- Heq. apply in_map. exact Hd.
Qed.

Lemma find_unique (q : RiskModel -> bool) s m :
  In m s -> q m = true -> (forall d, In d s -> q d = true -> d = m) ->
  find_one q s = Some m.
Proof.
  unfold find_one. induction s as [|x rest IH]; simpl; intros Hin Hq Hu; [contradiction|].
  destruct (q x) eqn:Ex.
  - f_equal. apply Hu; auto.
  - destruct Hin as [->|Hin]; [congruence|].
    apply IH; auto.
Qed.

Lemma set_by_id_ids i st now s : map _id (map (set_by_id i st now) s) = map _id s.
Proof.
  rewrite map_map. apply map_ext. intros d. unfold set_by_id.
  destruct (Nat.eqb (_id d) i); reflexivity.
Qed.

Lemma status_update_map i st now s m :
  NoDup (map _id s) -> In m s -> _id m = i ->
  update_one_status i st now s =
  (map (set_by_id i st now) s,
   if String.eqb (status m) st && Z.eqb (updatedAt m) now then 0%nat else 1%nat).
Proof.
  induction s as [|x rest IH]; simpl; intros Hnd Hin Hi; [contradiction|].
  inversion Hnd as [|? ? Hnotin Hnd']; subst.
  unfold set_by_id at 1.
  destruct (Nat.eqb_spec (_id x) (_id m)) as [E|E].
  - assert (x = m) as ->.
    { destruct Hin as [->|Hin]; [reflexivity|].
      exfalso. apply Hnotin. rewrite E. apply in_map. exact Hin. }
    f_equal. f_equal. symmetry. rewrite <- (map_id rest) at 2.
    apply map_ext_in. intros d Hd. unfold set_by_id.
    destruct (Nat.eqb_spec (_id d) (_id m)) as [E'|]; [|reflexivity].
    exfalso. apply Hnotin. rewrite <- E'. apply in_map. exact Hd.
  - destruct Hin as [->|Hin]; [contradiction|].
    rewrite (IH Hnd' Hin eq_refl). reflexivity.
Qed.

Lemma count_active_map f s :
  (forall d, In d s -> is_active (f d) = is_active d) ->
  count_documents is_active (map f s) = count_documents is_active s.
Proof.
  unfold count_documents. induction s as [|x rest IH]; simpl; intros H; [reflexivity|].
  rewrite (H x (or_introl eq_refl)).
  destruct (is_active x); simpl; rewrite IH by auto; reflexivity.
Qed.

Lemma restore_found model_id v now s m :
  NoDup (map _id s) ->
  find_one (archived_match_query model_id v) s = Some m ->
  restore_archived_model model_id v now s =
    (Ok ("Model " ++ model_id ++ " restored successfully"),
     map (set_by_id (_id m) "inactive" now) s).
Proof.
  intros Hnd Hf. destruct (in_store _ _ _ Hf) as [Hin Hq].
  unfold archived_match_query in Hq. apply andb_true_iff in Hq as [_ Hst].
  apply String.eqb_eq in Hst.
  unfold restore_archived_model. rewrite Hf.
  rewrite (status_update_map (_id m) "inactive" now s m Hnd Hin eq_refl).
  rewrite Hst. reflexivity.
Qed.

(** ** [restore_archived_model] *)

(** Restoring answers 404 and changes nothing when no archived document
    matches; otherwise the first archived match becomes ["inactive"]
    (with [updatedAt = now]), every other document is unchanged, and the
    number of active models stays the same. *)
Theorem restore_archived_inactive model_id v now s :
  NoDup (map _id s) ->
  (find_one (archived_match_query model_id v) s = None ->
     restore_archived_model model_id v now s =
       (HTTPException 404 "Archived risk model not found", s)) /\
  (forall m, find_one (archived_match_query model_id v) s = Some m ->
     status m = "archived" /\ modelId m = model_id /\
     restore_archived_model model_id v now s =
       (Ok ("Model " ++ model_id ++ " restored successfully"),
        map (set_by_id (_id m) "inactive" now) s) /\
     count_documents is_active (map (set_by_id (_id m) "inactive" now) s) =
       count_documents is_active s).
Proof.
  intros Hnd. split.
  - intros Hf. unfold restore_archived_model. rewrite Hf. reflexivity.
  - intros m Hf. destruct (in_store _ _ _ Hf) as [Hin Hq].
    unfold archived_match_query, id_version_query in Hq.
    apply andb_true_iff in Hq as [Hq Hst]. apply andb_true_iff in Hq as [Hid _].
    apply String.eqb_eq in Hst, Hid.
    split; [exact Hst|]. split; [exact Hid|].
    split; [apply restore_found; assumption|].
    apply count_active_map. intros d Hd. unfold set_by_id.
    destruct (Nat.eqb_spec (_id d) (_id m)) as [E|E]; [|reflexivity].
    rewrite (store_id_unique s d m Hnd Hd Hin E).
    unfold is_active. simpl. rewrite Hst. reflexivity.
Qed.

Lemma restore_archived_inactive_witness :
  NoDup (map _id [archived_m]) /\
  restore_archived_model "m" None 5 [archived_m] =
    (Ok ("Model " ++ "m" ++ " restored successfully"),
     map (set_by_id (_id archived_m) "inactive" 5) [archived_m]).
Proof.
  assert (Hnd : NoDup (map _id [archived_m])) by (repeat constructor; simpl; tauto).
  split; [exact Hnd|].
  exact (proj1 (proj2 (proj2 (proj2 (restore_archived_inactive "m" None 5 [archived_m] Hnd)
           archived_m eq_refl)))).
Defined.

(** Archiving a model version (given by a non-zero version that
    identifies one document) and then restoring it leaves that document
    ["inactive"], whatever its status before: the earlier status, for
    instance ["active"], is not brought back. *)
Theorem archive_then_restore model_id n now1 now2 s m a :
  NoDup (map _id s) -> n <> 0%Z -> In m s -> modelId m = model_id -> version m = n ->
  (forall d, In d s -> modelId d = model_id -> version d = n -> d = m) ->
  fst (archive_risk_model model_id (Some n) now1 s) = Ok a ->
  snd (archive_risk_model model_id (Some n) now1 s) =
    map (set_by_id (_id m) "archived" now1) s /\
  restore_archived_model model_id (Some n) now2
    (snd (archive_risk_model model_id (Some n) now1 s)) =
    (Ok ("Model " ++ model_id ++ " restored successfully"),
     map (set_by_id (_id m) "inactive" now2) (map (set_by_id (_id m) "archived" now1) s)).
Proof.
  intros Hnd Hn Hin Hid Hv Hu Ha.
  assert (Hq : forall d, id_version_query model_id (Some n) d = true <->
                         modelId d = model_id /\ version d = n).
  { intros d. unfold id_version_query.
    rewrite andb_true_iff, String.eqb_eq.
    destruct (Z.eqb_spec n 0) as [|_]; [contradiction|]. rewrite Z.eqb_eq. tauto. }
  assert (Hf : find_one (id_version_query model_id (Some n)) s = Some m).
  { apply find_unique; [exact Hin| apply Hq; auto|].
    intros d Hd Hqd. apply Hq in Hqd as [H1 H2]. apply Hu; assumption. }
  assert (Hs1 : snd (archive_risk_model model_id (Some n) now1 s) =
                map (set_by_id (_id m) "archived" now1) s).
  { revert Ha. unfold archive_risk_model. rewrite Hf.
    destruct (String.eqb (status m) "active" && Nat.leb (count_documents is_active s) 1);
      [simpl; discriminate|].
    rewrite (status_update_map (_id m) "archived" now1 s m Hnd Hin eq_refl).
    destruct (if String.eqb (status m) "archived" && Z.eqb (updatedAt m) now1
              then 0%nat else 1%nat); reflexivity. }
  split; [exact Hs1|]. rewrite Hs1.
  assert (Hf2 : find_one (archived_match_query model_id (Some n))
                  (map (set_by_id (_id m) "archived" now1) s) =
                Some (set_status "archived" now1 m)).
  2:{ rewrite (restore_found _ _ now2 _ _ ltac:(rewrite set_by_id_ids; exact Hnd) Hf2).
      reflexivity. }
  apply find_unique.
  - apply in_map_iff. exists m. split; [|exact Hin].
    unfold set_by_id. rewrite Nat.eqb_refl. reflexivity.
  - unfold archived_match_query. apply andb_true_iff. split; [apply Hq; auto|].
    apply String.eqb_refl.
  - intros d' Hd' Hq'. apply in_map_iff in Hd' as [d [<- Hd]].
    unfold set_by_id in *. destruct (Nat.eqb_spec (_id d) (_id m)) as [E|E].
    + rewrite (store_id_unique s d m Hnd Hd Hin E). reflexivity.
    + exfalso. unfold archived_match_query in Hq'. apply andb_true_iff in Hq' as [Hq' _].
      apply Hq in Hq' as [H1 H2]. apply E. rewrite (Hu d Hd H1 H2). reflexivity.
Qed.

Lemma archive_then_restore_witness :
  let s := [demo_v1; demo_v2; other_active] in
  snd (archive_risk_model "m" (Some 1%Z) 3 s) = map (set_by_id 1 "archived" 3) s /\
  restore_archived_model "m" (Some 1%Z) 4 (snd (archive_risk_model "m" (Some 1%Z) 3 s)) =
    (Ok ("Model " ++ "m" ++ " restored successfully"),
     map (set_by_id 1 "inactive" 4) (map (set_by_id 1 "archived" 3) s)).
Proof.
  intros s.
  refine (archive_then_restore "m" 1 3 4 s demo_v1 "Model m archived successfully"
            _ _ _ eq_refl eq_refl _ _).
  - unfold s. repeat constructor; simpl; lia.
  - discriminate.
  - unfold s. simpl. tauto.
  - unfold s. intros d Hd. simpl in Hd.
    destruct Hd as [<-|[<-|[<-|[]]]]; simpl; intros H1 H2;
      [reflexivity | discriminate | discriminate].
  - reflexivity.
Defined.

(** ** [create_risk_model] *)

Lemma fresh_id_bound s d : In d s -> (_id d < fresh_id s)%nat.
Proof.
  unfold fresh_id. induction s as [|x rest IH]; simpl; intros H; [contradiction|].
  destruct H as [->|H]; [lia|]. specialize (IH H). lia.
Qed.

Lemma find_app_some {A} (f : A -> bool) (l r : list A) x :
  find f l = Some x -> find f (app l r) = Some x.
Proof.
  induction l as [|y rest IH]; simpl; [discriminate|].
  destruct (f y); [exact (fun H => H)|exact IH].
Qed.

(** The version of a created model follows the first stored document of
    its [modelId], which a creation never replaces: once a [modelId] is
    stored, creating it twice stores two documents with the same
    [modelId] and the same version, and [get_risk_model] asked for that
    (non-zero) version never returns the second one. *)
Theorem create_twice_same_version model now now' s e d1 s1 d2 s2 :
  find_one (fun d => String.eqb (modelId d) (rc_modelId model)) s = Some e ->
  create_risk_model model now s = (Ok d1, s1) ->
  create_risk_model model now' s1 = (Ok d2, s2) ->
  version d1 = (version e + 1)%Z /\ version d2 = version d1 /\
  modelId d1 = modelId d2 /\ _id d1 <> _id d2 /\ In d1 s2 /\ In d2 s2 /\
  (version d2 <> 0%Z -> get_risk_model (rc_modelId model) (Some (version d2)) s2 <> Ok d2).
Proof.
  intros Hf H1 H2.
  unfold create_risk_model, insert_one in H1. rewrite Hf in H1.
  injection H1 as <- <-.
  unfold create_risk_model, insert_one in H2.
  unfold find_one in H2. rewrite (find_app_some _ _ _ _ Hf) in H2.
  injection H2 as <- <-. cbn [version modelId with_id _id].
  match goal with |- context [In (with_id (fresh_id s) ?nm) _] => set (new1 := nm) end.
  set (s1 := app s [with_id (fresh_id s) new1]).
  assert (Hd1 : In (with_id (fresh_id s) new1) s1).
  { apply in_or_app. right. left. reflexivity. }
  assert (Hlt := fresh_id_bound s1 _ Hd1). cbn [_id with_id] in Hlt.
  split; [reflexivity|]. split; [reflexivity|]. split; [reflexivity|].
  split; [lia|].
  split; [apply in_or_app; left; exact Hd1|].
  split; [apply in_or_app; right; left; reflexivity|].
  intros Hv. unfold get_risk_model. cbn [with_id version new1] in Hv |- *.
  rewrite (proj2 (Z.eqb_neq _ _) Hv). unfold find_one.
  set (q := fun d => (String.eqb (modelId d) (rc_modelId model) &&
                      Z.eqb (version d) (version e + 1))%bool).
  destruct (find q s1) as [x|] eqn:E.
  - rewrite (find_app_some _ _ _ _ E). intros Hx. injection Hx as ->.
    apply find_some in E. pose proof (fresh_id_bound s1 _ (proj1 E)) as Hb.
    cbn [_id with_id] in Hb. lia.
  - exfalso. assert (Hq := find_none _ _ E _ Hd1).
    unfold q in Hq. cbn [modelId version with_id new1] in Hq.
    rewrite String.eqb_refl, Z.eqb_refl in Hq. discriminate.
Qed.

Lemma create_twice_same_version_witness :
  exists d1 s1 d2 s2,
    create_risk_model create_m 5 demo_store = (Ok d1, s1) /\
    create_risk_model create_m 6 s1 = (Ok d2, s2) /\
    version d1 = 2%Z /\ version d2 = 2%Z /\
    get_risk_model "m" (Some 2%Z) s2 <> Ok d2.
Proof.
  do 4 eexists. split; [reflexivity|]. split; [reflexivity|].
  split; [reflexivity|]. split; [reflexivity|].
  refine (proj2 (proj2 (proj2 (proj2 (proj2 (proj2
            (create_twice_same_version create_m 5 6 demo_store demo_v1 _ _ _ _
               eq_refl eq_refl eq_refl)))))) _).
  discriminate.
Defined.

(** ** [get_risk_model] *)

Lemma find_one_latest_spec q s m :
  find_one_latest q s = Some m ->
  In m s /\ q m = true /\ forall d, In d s -> q d = true -> (version d <= version m)%Z.
Proof.
  revert m. induction s as [|x rest IH]; simpl; intros m H; [discriminate|].
  destruct (q x) eqn:Eq.
  - destruct (find_one_latest q rest) as [b|] eqn:Eb.
    + destruct (IH b eq_refl) as (Hb & Hqb & Hmax).
      destruct (Z.ltb_spec (version x) (version b)); injection H as <-.
      * split; [auto|]. split; [exact Hqb|].
        intros d [<-|Hd] Hqd; [lia|]. apply Hmax; auto.
      * split; [auto|]. split; [exact Eq|].
        intros d [<-|Hd] Hqd; [lia|]. specialize (Hmax d Hd Hqd). lia.
    + injection H as <-. split; [auto|]. split; [exact Eq|].
      intros d [<-|Hd] Hqd; [lia|].
      exfalso. clear IH. induction rest as [|y r IHr]; [contradiction|].
      simpl in Eb. destruct (q y) eqn:Ey.
      * destruct (find_one_latest q r); [destruct (Z.ltb _ _)|]; discriminate.
      * destruct Hd as [<-|Hd]; [congruence|]. apply IHr; auto.
  - destruct (IH m H) as (Hm & Hqm & Hmax). split; [auto|]. split; [exact Hqm|].
    intros d [<-|Hd] Hqd; [congruence|]. apply Hmax; auto.
Qed.

Lemma find_one_latest_none q s :
  find_one_latest q s = None -> forall d, In d s -> q d = false.
Proof.
  induction s as [|x rest IH]; simpl; intros H d Hd; [contradiction|].
  destruct (q x) eqn:Eq.
  - destruct (find_one_latest q rest); [destruct (Z.ltb _ _)|]; discriminate.
  - destruct Hd as [<-|Hd]; [exact Eq|]. apply IH; auto.
Qed.

Lemma find_one_latest_some q s d :
  In d s -> q d = true -> exists m, find_one_latest q s = Some m.
Proof.
  intros Hd Hq. destruct (find_one_latest q s) as [m|] eqn:E; [eauto|].
  rewrite (find_one_latest_none q s E d Hd) in Hq. discriminate.
Qed.

(** Without a version (or with version 0, which Python treats as false),
    [get_risk_model] never returns an archived model: it returns a
    non-archived document of the [modelId] whose version is the highest
    among them, and 404 exactly when every document of the [modelId] is
    archived (or there is none). *)
Theorem get_risk_model_latest model_id v s :
  (v = None \/ v = Some 0%Z) ->
  (forall d, get_risk_model model_id v s = Ok d ->
     In d s /\ modelId d = model_id /\ status d <> "archived" /\
     forall d', In d' s -> modelId d' = model_id -> status d' <> "archived" ->
       (version d' <= version d)%Z) /\
  (get_risk_model model_id v s = HTTPException 404 "Risk model not found" <->
   forall d, In d s -> modelId d = model_id -> status d = "archived").
Proof.
  intros Hv.
  assert (Hg : get_risk_model model_id v s =
               match find_one_latest (not_archived_query model_id) s with
               | None => HTTPException 404 "Risk model not found"
               | Some d => Ok d
               end) by (destruct Hv as [-> | ->]; reflexivity).
  assert (Hna : forall d, not_archived_query model_id d = true <->
                          modelId d = model_id /\ status d <> "archived").
  { intros d. unfold not_archived_query. rewrite andb_true_iff, String.eqb_eq, negb_true_iff.
    destruct (String.eqb_spec (status d) "archived"); split; intros [? ?];
      split; auto; try congruence; contradiction. }
  rewrite Hg. split.
  - intros d Hd. destruct (find_one_latest _ s) as [m|] eqn:Em; [|discriminate].
    injection Hd as ->. destruct (find_one_latest_spec _ _ _ Em) as (Hin & Hq & Hmax).
    apply Hna in Hq as [H1 H2]. split; [exact Hin|]. split; [exact H1|]. split; [exact H2|].
    intros d' Hd' H1' H2'. apply Hmax; [exact Hd'|]. apply Hna; auto.
  - destruct (find_one_latest _ s) as [m|] eqn:Em; split; intros H.
    + discriminate.
    + destruct (find_one_latest_spec _ _ _ Em) as (Hin & Hq & _).
      apply Hna in Hq as [H1 H2]. exfalso. apply H2. apply H; auto.
    + intros d Hd Hid. pose proof (find_one_latest_none _ _ Em d Hd) as Hf.
      destruct (String.eqb_spec (status d) "archived") as [|Hne]; [assumption|].
      assert (not_archived_query model_id d = true) by (apply Hna; auto). congruence.
    + reflexivity.
Qed.

Lemma get_risk_model_latest_witness :
  (None = @None Z \/ None = Some 0%Z) /\
  get_risk_model "m" None [demo_v1; demo_v2; set_status "archived" 3 demo_v2] = Ok demo_v2 /\
  In demo_v2 [demo_v1; demo_v2; set_status "archived" 3 demo_v2] /\ modelId demo_v2 = "m" /\
  status demo_v2 <> "archived".
Proof.
  assert (Hv : None = @None Z \/ None = Some 0%Z) by (left; reflexivity).
  assert (Hg : get_risk_model "m" None [demo_v1; demo_v2; set_status "archived" 3 demo_v2] =
               Ok demo_v2) by reflexivity.
  destruct (proj1 (get_risk_model_latest "m" None
                     [demo_v1; demo_v2; set_status "archived" 3 demo_v2] Hv) demo_v2 Hg)
    as (H1 & H2 & H3 & _).
  repeat split; assumption.
Defined.

(** ** [get_risk_models] *)

Lemma in_insert_by_updated x d l : In x (insert_by_updated d l) <-> x = d \/ In x l.
Proof.
  induction l as [|y rest IH]; simpl; [intuition congruence|].
  destruct (Z.leb (updatedAt y) (updatedAt d)); simpl; [intuition congruence|].
  rewrite IH. intuition congruence.
Qed.

Lemma in_sort_by_updated x l : In x (sort_by_updated_desc l) <-> In x l.
Proof.
  unfold sort_by_updated_desc. induction l as [|y rest IH]; simpl; [tauto|].
  rewrite in_insert_by_updated, IH. intuition congruence.
Qed.

Lemma insert_by_updated_sorted d l :
  Sorted newer_first l -> Sorted newer_first (insert_by_updated d l).
Proof.
  induction l as [|y rest IH]; simpl; intros H; [repeat constructor|].
  destruct (Z.leb_spec (updatedAt y) (updatedAt d)) as [Hle|Hlt].
  - constructor; [exact H|]. constructor. exact Hle.
  - apply Sorted_inv in H as [Hr Hhd]. constructor; [apply IH; exact Hr|].
    destruct rest as [|z r]; simpl.
    + constructor. unfold newer_first. lia.
    + inversion Hhd as [|? ? Hyz]; subst.
      destruct (Z.leb (updatedAt z) (updatedAt d)); constructor; unfold newer_first in *; lia.
Qed.

Lemma sort_by_updated_sorted l : Sorted newer_first (sort_by_updated_desc l).
Proof.
  unfold sort_by_updated_desc. induction l as [|y rest IH]; simpl; [constructor|].
  apply insert_by_updated_sorted. exact IH.
Qed.

Lemma sorted_skipn n l : Sorted newer_first l -> Sorted newer_first (skipn n l).
Proof.
  revert l. induction n as [|n IH]; intros l H; [exact H|].
  destruct l as [|x rest]; simpl; [constructor|].
  apply IH. apply Sorted_inv in H as [H _]. exact H.
Qed.

Lemma sorted_firstn n l : Sorted newer_first l -> Sorted newer_first (firstn n l).
Proof.
  revert l. induction n as [|n IH]; intros l H; simpl; [constructor|].
  destruct l as [|x rest]; [constructor|].
  apply Sorted_inv in H as [Hr Hhd]. constructor; [apply IH; exact Hr|].
  destruct n as [|n]; simpl; [constructor|].
  destruct rest as [|y r]; [constructor|].
  inversion Hhd; subst. constructor. assumption.
Qed.

Lemma in_skipn_l {A} n (l : list A) x : In x (skipn n l) -> In x l.
Proof. intros H. rewrite <- (firstn_skipn n l). apply in_or_app. right. exact H. Qed.

Lemma in_firstn_l {A} n (l : list A) x : In x (firstn n l) -> In x l.
Proof. intros H. rewrite <- (firstn_skipn n l). apply in_or_app. left. exact H. Qed.

(** The model list: a negative [skip] is refused (500); otherwise every
    listed model is a stored one with the requested status (an empty
    status string filters nothing), the list is ordered by [updatedAt],
    newest first, and a positive [limit] caps its length. *)
Theorem get_risk_models_listing st skip limit s :
  ((skip < 0)%Z -> get_risk_models st skip limit s = HTTPException 500 "Internal Server Error") /\
  (forall l, get_risk_models st skip limit s = Ok l ->
     (forall d, In d l -> In d s /\
        match st with Some x => x = "" \/ status d = x | None => True end) /\
     Sorted newer_first l /\
     ((0 < limit)%Z -> (List.length l <= Z.to_nat limit)%nat)).
Proof.
  split.
  - intros H. unfold get_risk_models. destruct (Z.ltb_spec skip 0); [reflexivity|lia].
  - intros l H. unfold get_risk_models in H.
    destruct (Z.ltb skip 0); [discriminate|]. injection H as <-.
    set (matching := match st with
                     | Some x => if String.eqb x "" then s
                                 else filter (fun d => String.eqb (status d) x) s
                     | None => s
                     end).
    assert (Hm : forall d, In d matching -> In d s /\
                   match st with Some x => x = "" \/ status d = x | None => True end).
    { intros d Hd. unfold matching in Hd. destruct st as [x|]; [|auto].
      destruct (String.eqb_spec x "") as [E|E]; [auto|].
      apply filter_In in Hd as [Hd Hs]. apply String.eqb_eq in Hs. auto. }
    assert (Hsk : forall d, In d (skipn (Z.to_nat skip) (sort_by_updated_desc matching)) ->
                  In d matching).
    { intros d Hd. apply in_skipn_l in Hd. rewrite in_sort_by_updated in Hd. exact Hd. }
    pose proof (sorted_skipn (Z.to_nat skip) _ (sort_by_updated_sorted matching)) as Hs.
    destruct (Z.eqb_spec limit 0) as [El|El].
    + split; [intros d Hd; apply Hm, Hsk, Hd|]. split; [exact Hs|]. lia.
    + split; [intros d Hd; apply Hm, Hsk; apply in_firstn_l in Hd; exact Hd|].
      split; [apply sorted_firstn; exact Hs|].
      intros Hpos. rewrite length_firstn. replace (Z.abs limit) with limit by lia. lia.
Qed.

Lemma get_risk_models_listing_witness :
  get_risk_models (Some "active") 0 1 demo_store = Ok [demo_v1] /\
  Sorted newer_first [demo_v1] /\ (List.length [demo_v1] <= 1)%nat.
Proof.
  assert (H : get_risk_models (Some "active") 0 1 demo_store = Ok [demo_v1]) by reflexivity.
  destruct (proj2 (get_risk_models_listing (Some "active") 0 1 demo_store) [demo_v1] H)
    as (_ & Hs & Hl).
  split; [exact H|]. split; [exact Hs|]. exact (Hl ltac:(lia)).
Defined.

(** ** [get_model_performance] *)

Lemma Qdiv_nonneg' x y : 0 <= x -> 0 <= y -> 0 <= x / y.
Proof. intros. apply Qmult_le_0_compat; [|apply Qinv_le_0_compat]; assumption. Qed.

Lemma inject_nat_le a b : (a <= b)%nat -> inject_nat a <= inject_nat b.
Proof. intros H. unfold inject_nat. rewrite <- Zle_Qle. lia. Qed.

Lemma inject_nat_pos a : (0 < a)%nat -> 0 < inject_nat a.
Proof. intros H. unfold inject_nat. change 0 with (inject_Z 0). rewrite <- Zlt_Qlt. lia. Qed.

Lemma inject_nat_add a b : inject_nat (a + b) == inject_nat a + inject_nat b.
Proof. unfold inject_nat. rewrite Nat2Z.inj_add, inject_Z_plus. reflexivity. Qed.

(** [a / t * 100 + b / t * 100 <= 100] when [a + b <= t]. *)
Lemma percent_sum_le a b t :
  0 < t -> a + b <= t -> a / t * 100 + b / t * 100 <= 100.
Proof.
  intros Ht Hab.
  assert (E : a / t * 100 + b / t * 100 == (a + b) / t * 100) by (field; lra).
  rewrite E.
  assert ((a + b) / t <= 1).
  { apply (Qmult_le_r _ _ t Ht). setoid_replace ((a + b) / t * t) with (a + b)
      by (field; lra). lra. }
  lra.
Qed.

Lemma count_if_disjoint (p q : UsageRecord -> bool) l :
  (forall r, p r && q r = false) ->
  (count_if p l + count_if q l <= List.length l)%nat.
Proof.
  unfold count_if. intros H. induction l as [|r rest IH]; simpl; [lia|].
  specialize (H r). destruct (p r), (q r); simpl in *; try discriminate; lia.
Qed.

Lemma fp_fn_disjoint flag r : is_false_positive flag r && is_false_negative flag r = false.
Proof.
  unfold is_false_positive, is_false_negative.
  destruct (Qle_bool flag (ur_riskScore r)); simpl; [|reflexivity].
  destruct (match ur_outcome r with Some o => String.eqb o "legitimate" | None => false end);
    reflexivity.
Qed.

(** The false-positive and false-negative rates are both present or both
    absent; when present, each is a percentage and their sum is at most
    100, since no record is counted as both. *)
Theorem performance_rates_bounded model_id v tf now s ps p :
  get_model_performance model_id v tf now s ps = Ok p ->
  (pr_falsePositiveRate p = None <-> pr_falseNegativeRate p = None) /\
  (forall fp fn, pr_falsePositiveRate p = Some fp -> pr_falseNegativeRate p = Some fn ->
     0 <= fp /\ 0 <= fn /\ fp + fn <= 100).
Proof.
  intros H. unfold get_model_performance in H.
  destruct (find_one (id_version_query model_id v) s) as [model|]; [|discriminate].
  destruct (filter (performance_query model_id (version model) (start_time tf now)) ps)
    as [|r0 rest]; [injection H as <-; simpl; split; [tauto|discriminate]|].
  destruct (filter has_outcome (r0 :: rest)) as [|w0 wrest] eqn:Ew;
    [injection H as <-; simpl; split; [tauto|discriminate]|].
  destruct (lookup "flag" (thresholds model)) as [flag|]; [|discriminate].
  injection H as <-. simpl. split; [split; discriminate|].
  intros fp fn E1 E2. injection E1 as <-. injection E2 as <-.
  set (t := inject_nat (List.length (w0 :: wrest))).
  set (a := inject_nat (count_if (is_false_positive flag) (w0 :: wrest))).
  set (b := inject_nat (count_if (is_false_negative flag) (w0 :: wrest))).
  assert (Ht : 0 < t) by (apply inject_nat_pos; simpl; lia).
  assert (Ha : 0 <= a) by (apply (inject_nat_le 0); lia).
  assert (Hb : 0 <= b) by (apply (inject_nat_le 0); lia).
  assert (Hab : a + b <= t).
  { unfold a, b, t. rewrite <- inject_nat_add. apply inject_nat_le.
    apply count_if_disjoint. apply fp_fn_disjoint. }
  change (inject_nat (S (List.length wrest))) with t.
  split; [apply Qmult_le_0_compat; [apply Qdiv_nonneg'; lra | lra]|].
  split; [apply Qmult_le_0_compat; [apply Qdiv_nonneg'; lra | lra]|].
  apply percent_sum_le; assumption.
Qed.

Lemma performance_rates_bounded_witness :
  exists p, get_model_performance "m" None "24h" 200 [flag_model] demo_usage = Ok p /\
    (forall fp fn, pr_falsePositiveRate p = Some fp -> pr_falseNegativeRate p = Some fn ->
       0 <= fp /\ 0 <= fn /\ fp + fn <= 100).
Proof.
  destruct (get_model_performance "m" None "24h" 200 [flag_model] demo_usage)
    as [p|c msg] eqn:E.
  - exists p. split; [reflexivity|].
    exact (proj2 (performance_rates_bounded _ _ _ _ _ _ _ E)).
  - vm_compute in E. discriminate E.
Defined.

Lemma sum_scores_bounds lo hi l acc :
  (forall r, In r l -> lo <= ur_riskScore r <= hi) ->
  acc + inject_nat (List.length l) * lo <=
    fold_left (fun acc r => acc + ur_riskScore r) l acc <=
  acc + inject_nat (List.length l) * hi.
Proof.
  revert acc. induction l as [|r rest IH]; cbn [fold_left List.length In]; intros acc H.
  - change (inject_nat 0) with 0. lra.
  - specialize (IH (acc + ur_riskScore r) (fun r' Hr' => H r' (or_intror Hr'))).
    specialize (H r (or_introl eq_refl)).
    replace (S (List.length rest)) with (List.length rest + 1)%nat in * by lia.
    rewrite inject_nat_add. change (inject_nat 1) with 1.
    nra.
Qed.

(** The average risk score of a report lies between any bounds of the
    stored records' scores (for instance in [[0, 100]] when the stored
    scores are). *)
Theorem performance_avg_within model_id v tf now s ps p lo hi a :
  get_model_performance model_id v tf now s ps = Ok p ->
  pr_avgRiskScore p = Some a ->
  (forall r, In r ps -> lo <= ur_riskScore r <= hi) ->
  lo <= a <= hi.
Proof.
  intros H Ha Hb. unfold get_model_performance in H.
  destruct (find_one (id_version_query model_id v) s) as [model|]; [|discriminate].
  destruct (filter (performance_query model_id (version model) (start_time tf now)) ps)
    as [|r0 rest] eqn:Er; [injection H as <-; discriminate|].
  assert (Hrec : forall r, In r (r0 :: rest) -> lo <= ur_riskScore r <= hi).
  { intros r Hr. rewrite <- Er in Hr. apply filter_In in Hr as [Hr _]. auto. }
  assert (Ha' : a = sum_scores (r0 :: rest) / inject_nat (List.length (r0 :: rest))).
  { destruct (filter has_outcome (r0 :: rest));
      [|destruct (lookup "flag" (thresholds model))]; try discriminate;
      injection H as <-; simpl in Ha; injection Ha as <-; reflexivity. }
  subst a.
  set (n := inject_nat (List.length (r0 :: rest))).
  assert (Hn : 0 < n) by (apply inject_nat_pos; simpl; lia).
  pose proof (sum_scores_bounds lo hi (r0 :: rest) 0 Hrec) as [Hlo Hhi].
  fold n in Hlo, Hhi. change (fold_left _ _ 0) with (sum_scores (r0 :: rest)) in Hlo, Hhi.
  assert (E : sum_scores (r0 :: rest) / n * n == sum_scores (r0 :: rest)) by (field; lra).
  split.
  - apply (Qmult_le_r _ _ n Hn). rewrite E. lra.
  - apply (Qmult_le_r _ _ n Hn). rewrite E. lra.
Qed.

Lemma performance_avg_within_witness :
  exists p, get_model_performance "m" None "24h" 200 [flag_model] demo_usage = Ok p /\
    forall a, pr_avgRiskScore p = Some a -> 0 <= a <= 100.
Proof.
  destruct (get_model_performance "m" None "24h" 200 [flag_model] demo_usage)
    as [p|c msg] eqn:E.
  - exists p. split; [reflexivity|]. intros a Ha.
    apply (performance_avg_within _ _ _ _ _ _ _ 0 100 a E Ha).
    intros r Hr. simpl in Hr.
    destruct Hr as [<-|[<-|[<-|[]]]]; simpl; lra.
  - vm_compute in E. discriminate E.
Defined.

Lemma in_incr_count f c k d :
  In (f, c) (incr_count k d) ->
  In (f, c) d \/ (f = k /\ (c = 1%nat \/ exists n, c = S n /\ In (f, n) d)).
Proof.
  induction d as [|[k' n] rest IH]; simpl; intros H.
  - destruct H as [H|[]]. injection H as <- <-. right. auto.
  - destruct (String.eqb_spec k k') as [<-|Hne]; simpl in H.
    + destruct H as [H|H].
      * injection H as <- <-. right. split; [reflexivity|]. right. eauto.
      * left. right. exact H.
    + destruct H as [H|H].
      * left. left. exact H.
      * destruct (IH H) as [H'|[Hf [Hc|[m [Hm Hin]]]]]; [left; right; exact H'| |].
        -- right. auto.
        -- right. split; [exact Hf|]. right. exists m. auto.
Qed.

Lemma count_factors_inner_bound fs acc (B : string -> nat) :
  (forall f c, In (f, c) acc -> (1 <= c <= B f)%nat) ->
  forall f c, In (f, c) (fold_left (fun a x => incr_count x a) fs acc) ->
  (1 <= c <= B f + count_occ string_dec fs f)%nat.
Proof.
  revert acc B. induction fs as [|x fs IH]; simpl; intros acc B HB f c H.
  - specialize (HB f c H). lia.
  - set (B' := fun g => (B g + if string_dec x g then 1 else 0)%nat).
    assert (HB' : forall g c', In (g, c') (incr_count x acc) -> (1 <= c' <= B' g)%nat).
    { intros g c' Hg. unfold B'.
      destruct (in_incr_count _ _ _ _ Hg) as [Hg'|[-> [->|[n [-> Hn]]]]].
      - specialize (HB g c' Hg'). destruct (string_dec x g); lia.
      - destruct (string_dec x x); [lia|congruence].
      - specialize (HB x n Hn). destruct (string_dec x x); [lia|congruence]. }
    specialize (IH _ B' HB' f c H). unfold B' in IH.
    destruct (string_dec x f); lia.
Qed.

Lemma count_factors_outer_bound recs acc n :
  (forall f c, In (f, c) acc -> (1 <= c <= n)%nat) ->
  (forall r, In r recs -> NoDup (ur_riskFactors r)) ->
  forall f c,
    In (f, c) (fold_left (fun acc r =>
                 fold_left (fun acc' f => incr_count f acc') (ur_riskFactors r) acc)
               recs acc) ->
  (1 <= c <= n + List.length recs)%nat.
Proof.
  revert acc n. induction recs as [|r rest IH]; simpl; intros acc n Hacc Hnd f c H.
  - specialize (Hacc f c H). lia.
  - assert (Hstep : forall g c', In (g, c') (fold_left (fun a x => incr_count x a)
                                               (ur_riskFactors r) acc) ->
                                 (1 <= c' <= S n)%nat).
    { intros g c' Hg.
      pose proof (count_factors_inner_bound (ur_riskFactors r) acc (fun _ => n) Hacc g c' Hg).
      pose proof (proj1 (NoDup_count_occ string_dec (ur_riskFactors r))
                    (Hnd r (or_introl eq_refl)) g).
      lia. }
    specialize (IH _ (S n) Hstep (fun r' Hr' => Hnd r' (or_intror Hr')) f c H). lia.
Qed.

(** Each risk factor count is between 1 and the number of records, when
    no record lists a factor twice. *)
Lemma count_factors_bound recs f c :
  (forall r, In r recs -> NoDup (ur_riskFactors r)) ->
  In (f, c) (count_factors recs) -> (1 <= c <= List.length recs)%nat.
Proof.
  intros Hnd H. unfold count_factors in H.
  apply (count_factors_outer_bound recs [] 0) in H; [lia|intros ? ? []|exact Hnd].
Qed.

(** Every entry of the risk factor distribution of a report is a
    percentage in [(0, 100]], when no stored record lists a factor twice. *)
Theorem performance_distribution_percent model_id v tf now s ps p f pct :
  get_model_performance model_id v tf now s ps = Ok p ->
  (forall r, In r ps -> NoDup (ur_riskFactors r)) ->
  In (f, pct) (pr_riskFactorDistribution p) ->
  0 < pct <= 100.
Proof.
  intros H Hnd Hin. unfold get_model_performance in H.
  destruct (find_one (id_version_query model_id v) s) as [model|]; [|discriminate].
  set (recs := filter (performance_query model_id (version model) (start_time tf now)) ps) in H.
  assert (Hnd' : forall r, In r recs -> NoDup (ur_riskFactors r)).
  { intros r Hr. apply filter_In in Hr as [Hr _]. auto. }
  assert (Hd : pr_riskFactorDistribution p =
               map (fun '(factor, count) =>
                      (factor, (inject_nat count / inject_nat (List.length recs)) * 100))
                   (count_factors recs)).
  { destruct recs as [|r0 rest].
    - injection H as <-. reflexivity.
    - destruct (filter has_outcome (r0 :: rest));
        [|destruct (lookup "flag" (thresholds model))]; try discriminate;
        injection H as <-; reflexivity. }
  rewrite Hd in Hin. apply in_map_iff in Hin as [[f' c] [Heq Hc]].
  injection Heq as _ <-.
  pose proof (count_factors_bound recs f' c Hnd' Hc) as Hb.
  set (n := List.length recs) in *.
  assert (Hn : 0 < inject_nat n) by (apply inject_nat_pos; lia).
  assert (Hc1 : 1 <= inject_nat c).
  { change 1 with (inject_nat 1). apply inject_nat_le. lia. }
  assert (Hcn : inject_nat c <= inject_nat n) by (apply inject_nat_le; lia).
  assert (E : inject_nat c / inject_nat n * inject_nat n == inject_nat c) by (field; lra).
  split.
  - assert (0 < inject_nat c / inject_nat n).
    { apply (Qmult_lt_r _ _ (inject_nat n) Hn). rewrite E. lra. }
    lra.
  - assert (inject_nat c / inject_nat n <= 1).
    { apply (Qmult_le_r _ _ (inject_nat n) Hn). rewrite E. lra. }
    lra.
Qed.

Lemma performance_distribution_percent_witness :
  exists p, get_model_performance "m" None "24h" 200 [flag_model] demo_usage = Ok p /\
    forall f pct, In (f, pct) (pr_riskFactorDistribution p) -> 0 < pct <= 100.
Proof.
  destruct (get_model_performance "m" None "24h" 200 [flag_model] demo_usage)
    as [p|c msg] eqn:E.
  - exists p. split; [reflexivity|]. intros f pct Hin.
    apply (performance_distribution_percent _ _ _ _ _ _ _ f _ E); [|exact Hin].
    intros r Hr. simpl in Hr.
    destruct Hr as [<-|[<-|[<-|[]]]]; simpl; repeat constructor; simpl;
      intuition discriminate.
  - vm_compute in E. discriminate E.
Defined.

(** When the model has no ["flag"] threshold, the report fails with 500
    exactly when a record of the model in the timeframe has an outcome. *)
Theorem performance_missing_flag model_id v tf now s ps model :
  find_one (id_version_query model_id v) s = Some model ->
  lookup "flag" (thresholds model) = None ->
  (get_model_performance model_id v tf now s ps = HTTPException 500 "Internal Server Error" <->
   exists r, In r ps /\
     performance_query model_id (version model) (start_time tf now) r = true /\
     has_outcome r = true).
Proof.
  intros Hf Hflag. unfold get_model_performance. rewrite Hf.
  destruct (filter (performance_query model_id (version model) (start_time tf now)) ps)
    as [|r0 rest] eqn:Er.
  - split; [discriminate|]. intros [r [Hr [Hq _]]].
    assert (Hin : In r (filter (performance_query model_id (version model)
                                  (start_time tf now)) ps))
      by (apply filter_In; auto).
    rewrite Er in Hin. destruct Hin.
  - destruct (filter has_outcome (r0 :: rest)) as [|w wrest] eqn:Eo.
    + split; [discriminate|]. intros [r [Hr [Hq Ho]]].
      assert (Hin : In r (r0 :: rest)) by (rewrite <- Er; apply filter_In; auto).
      assert (Hin' : In r (filter has_outcome (r0 :: rest))) by (apply filter_In; auto).
      rewrite Eo in Hin'. destruct Hin'.
    + rewrite Hflag. split; [intros _|reflexivity].
      assert (Hw : In w (filter has_outcome (r0 :: rest))) by (rewrite Eo; left; reflexivity).
      apply filter_In in Hw as [Hw Ho]. rewrite <- Er in Hw.
      apply filter_In in Hw as [Hw Hq]. eauto.
Qed.

Lemma performance_missing_flag_witness :
  get_model_performance "m" None "24h" 200 [noflag_model] demo_usage =
    HTTPException 500 "Internal Server Error".
Proof.
  apply (proj2 (performance_missing_flag "m" None "24h" 200 [noflag_model] demo_usage
                  noflag_model eq_refl eq_refl)).
  exists usage_fp. split; [simpl; auto|]. split; reflexivity.
Defined.

Lemma update_first_record_cases p f ps :
  (update_first_record p f ps = (ps, false) /\ forall r, In r ps -> p r = false) \/
  (exists pre r post, ps = app pre (r :: post) /\ (forall x, In x pre -> p x = false) /\
     p r = true /\ update_first_record p f ps = (app pre (f r :: post), true)).
Proof.
  induction ps as [|r rest IH]; simpl.
  - left. split; [reflexivity|intros _ []].
  - destruct (p r) eqn:Hr.
    + right. exists [], r, rest. simpl. intuition.
    + destruct IH as [[-> Hno]|[pre [r' [post [-> [Hpre [Hr' ->]]]]]]].
      * left. split; [reflexivity|]. intros x [<-|Hx]; auto.
      * right. exists (r :: pre), r', post. simpl. repeat split; auto.
        intros x [<-|Hx]; auto.
Qed.

(** [provide_transaction_feedback] either records the outcome on the first
    record of the model and transaction, or fails and leaves the records
    as they were: with 400 for an outcome other than ["legitimate"] and
    ["fraud"], with 404 when no record matches. *)
Theorem feedback_outcomes model_id transaction_id outcome now ps res ps' :
  provide_transaction_feedback model_id transaction_id outcome now ps = (res, ps') ->
  let matches r := ur_modelId r = model_id /\ ur_transactionId r = transaction_id in
  (res = Ok "Feedback recorded successfully" /\
   (outcome = "legitimate" \/ outcome = "fraud") /\
   exists pre r post, ps = app pre (r :: post) /\ (forall x, In x pre -> ~ matches x) /\
     matches r /\ ps' = app pre (set_feedback outcome now r :: post)) \/
  (ps' = ps /\
   ((res = HTTPException 400 "Outcome must be 'legitimate' or 'fraud'" /\
     outcome <> "legitimate" /\ outcome <> "fraud") \/
    (res = HTTPException 404 "Transaction record not found" /\
     (outcome = "legitimate" \/ outcome = "fraud") /\
     forall r, In r ps -> ~ matches r))).
Proof.
  intros H matches. unfold provide_transaction_feedback in H.
  assert (Hm : forall r, String.eqb (ur_modelId r) model_id &&
                         String.eqb (ur_transactionId r) transaction_id = true <-> matches r).
  { intros r. unfold matches. rewrite andb_true_iff, !String.eqb_eq. reflexivity. }
  destruct (String.eqb_spec outcome "legitimate") as [Hl|Hl];
    destruct (String.eqb_spec outcome "fraud") as [Hf|Hf]; simpl in H.
  1-3: (assert (Hv : outcome = "legitimate" \/ outcome = "fraud") by tauto);
    destruct (update_first_record_cases
                (fun r => String.eqb (ur_modelId r) model_id &&
                          String.eqb (ur_transactionId r) transaction_id)
                (set_feedback outcome now) ps)
      as [[E Hno]|[pre [r [post [Eps [Hpre [Hr E]]]]]]]; rewrite E in H;
    injection H as <- <-;
    [right; split; [reflexivity|]; right; split; [reflexivity|]; split; [exact Hv|];
       intros r Hr Hmr; apply Hm in Hmr; rewrite Hno in Hmr; [discriminate|exact Hr]
    |left; split; [reflexivity|]; split; [exact Hv|];
       exists pre, r, post; split; [exact Eps|]; split;
       [intros x Hx Hmx; apply Hm in Hmx; rewrite Hpre in Hmx; [discriminate|exact Hx]
       |split; [apply Hm; exact Hr|reflexivity]]].
  injection H as <- <-. right. split; [reflexivity|]. left. auto.
Qed.

Lemma feedback_outcomes_witness :
  provide_transaction_feedback "m" "t3" "fraud" 300 demo_usage =
    (Ok "Feedback recorded successfully",
     [usage_fp; usage_fn; set_feedback "fraud" 300 usage_open]) /\
  (ur_transactionId usage_fp <> "t3" /\ ur_transactionId usage_fn <> "t3").
Proof.
  pose proof (feedback_outcomes "m" "t3" "fraud" 300 demo_usage
                (Ok "Feedback recorded successfully")
                [usage_fp; usage_fn; set_feedback "fraud" 300 usage_open]
                eq_refl) as H.
  split; [reflexivity|].
  destruct H as [[_ [_ [pre [r [post [Eps [Hpre [Hr _]]]]]]]]|[He _]];
    [|discriminate He].
  split; simpl; discriminate.
Defined.

(** Swapping the two models of [compare_models] swaps the reports and
    negates every difference, over the same keys. *)
Theorem compare_models_swap a b tf now s ps c :
  compare_models a b tf now s ps = Ok c ->
  exists c', compare_models b a tf now s ps = Ok c' /\
    cmp_model1 c' = cmp_model2 c /\ cmp_model2 c' = cmp_model1 c /\
    map fst (cmp_differences c') = map fst (cmp_differences c) /\
    Forall2 (fun kd kd' => snd kd' == - snd kd) (cmp_differences c) (cmp_differences c').
Proof.
  unfold compare_models. intros H.
  destruct (get_model_performance a None tf now s ps) as [p1|] eqn:E1; [|discriminate].
  destruct (get_model_performance b None tf now s ps) as [p2|] eqn:E2; [|discriminate].
  injection H as <-. eexists. split; [reflexivity|]. simpl.
  split; [reflexivity|]. split; [reflexivity|].
  unfold differences, compared_keys. simpl.
  destruct (perf_get "avgRiskScore" p1), (perf_get "avgRiskScore" p2);
  destruct (perf_get "falsePositiveRate" p1), (perf_get "falsePositiveRate" p2);
  destruct (perf_get "falseNegativeRate" p1), (perf_get "falseNegativeRate" p2);
  simpl; split; auto; repeat constructor; simpl; ring.
Qed.

Lemma compare_models_swap_witness :
  exists c, compare_models "m" "n" "24h" 200 [flag_model; flag_model_n]
                           (usage_n :: demo_usage) = Ok c /\
    List.length (cmp_differences c) = 3%nat /\
    exists c', compare_models "n" "m" "24h" 200 [flag_model; flag_model_n]
                              (usage_n :: demo_usage) = Ok c' /\
      Forall2 (fun kd kd' => snd kd' == - snd kd) (cmp_differences c) (cmp_differences c').
Proof.
  destruct (compare_models "m" "n" "24h" 200 [flag_model; flag_model_n]
                           (usage_n :: demo_usage)) as [c|code msg] eqn:E.
  - exists c. split; [reflexivity|].
    destruct (compare_models_swap _ _ _ _ _ _ _ E)
      as [c' [E' [_ [_ [_ Hd]]]]].
    split.
    + vm_compute in E. injection E as <-. reflexivity.
    + exists c'. split; [exact E'|exact Hd].
  - vm_compute in E. discriminate E.
Defined.

(** ** [convert_to_json_serializable] *)

(** Induction on documents, through their lists and dictionaries. *)
Lemma JsonVal_deep_ind (P : JsonVal -> Prop) :
  P JNull -> (forall b, P (JBool b)) -> (forall z, P (JInt z)) -> (forall q, P (JFloat q)) ->
  (forall s, P (JStr s)) -> (forall d, P (JDatetime d)) -> (forall h, P (JObjectId h)) ->
  (forall items, Forall P items -> P (JList items)) ->
  (forall entries, Forall (fun kv => P (snd kv)) entries -> P (JDict entries)) ->
  forall v, P v.
Proof.
  intros Hn Hb Hz Hq Hs Hd Ho Hl Hdict.
  refine (fix F v := match v with
                     | JNull => Hn | JBool b => Hb b | JInt z => Hz z | JFloat q => Hq q
                     | JStr s => Hs s | JDatetime d => Hd d | JObjectId h => Ho h
                     | JList items => Hl items _
                     | JDict entries => Hdict entries _
                     end).
  - induction items as [|x rest IH]; constructor; [apply F|exact IH].
  - induction entries as [|[k x] rest IH]; constructor; [apply F|exact IH].
Qed.

Lemma json_serializable_fixed v :
  json_serializable v = true -> convert_to_json_serializable v = v.
Proof.
  induction v as [| | | | | | |items IH|entries IH] using JsonVal_deep_ind;
    simpl; intros H; try reflexivity; try discriminate.
  - f_equal. induction IH as [|x rest Hx _ IHr]; [reflexivity|].
    simpl in H. apply andb_true_iff in H as [H1 H2]. simpl. rewrite Hx, IHr; auto.
  - f_equal. induction IH as [|[k x] rest Hx _ IHr]; [reflexivity|].
    simpl in H. apply andb_true_iff in H as [H1 H2]. simpl in *. rewrite Hx, IHr; auto.
Qed.

Lemma convert_serializable v : json_serializable (convert_to_json_serializable v) = true.
Proof.
  induction v as [| | | | | | |items IH|entries IH] using JsonVal_deep_ind;
    simpl; try reflexivity.
  - induction IH as [|x rest Hx _ IHr]; simpl; [reflexivity|]. rewrite Hx. exact IHr.
  - induction IH as [|[k x] rest Hx _ IHr]; simpl; [reflexivity|].
    simpl in Hx. rewrite Hx. exact IHr.
Qed.

(** [convert_to_json_serializable] leaves no [datetime] and no
    [ObjectId] at any depth, and converting again changes nothing. *)
Theorem convert_to_json_serializable_clean v :
  json_serializable (convert_to_json_serializable v) = true /\
  convert_to_json_serializable (convert_to_json_serializable v) =
    convert_to_json_serializable v.
Proof.
  split; [apply convert_serializable|].
  apply json_serializable_fixed. apply convert_serializable.
Qed.

(** ** [update_risk_model] *)

Lemma count_documents_app q s1 s2 :
  count_documents q (app s1 s2) = (count_documents q s1 + count_documents q s2)%nat.
Proof. unfold count_documents. rewrite filter_app, length_app. reflexivity. Qed.

Lemma update_one_with_count i f s :
  (forall d, is_active (f d) = true -> is_active d = true) ->
  (count_documents is_active (fst (update_one_with i f s)) <=
   count_documents is_active s)%nat.
Proof.
  unfold count_documents. intros Hf. induction s as [|d rest IH]; simpl; [lia|].
  destruct (Nat.eqb (_id d) i).
  - simpl. destruct (is_active (f d)) eqn:E.
    + rewrite (Hf d E). simpl. lia.
    + destruct (is_active d); simpl; lia.
  - destruct (update_one_with i f rest) as [rest' n] eqn:Er. simpl in *.
    destruct (is_active d); simpl; lia.
Qed.

(** [update_risk_model] never makes a model active: whatever the request,
    the number of active models does not grow. *)
Theorem update_never_activates model_id u now s :
  (count_documents is_active (snd (update_risk_model model_id u now s)) <=
   count_documents is_active s)%nat.
Proof.
  unfold update_risk_model.
  destruct (find_one_latest (not_archived_query model_id) s) as [m|]; [|simpl; lia].
  destruct (String.eqb (status m) "active" && _).
  - simpl. rewrite count_documents_app. unfold count_documents at 2. simpl. lia.
  - assert (Hstep : forall st, st <> Some "active" ->
              (count_documents is_active (fst (update_one_with (_id m)
                                                 (set_updates u st now) s)) <=
               count_documents is_active s)%nat).
    { intros st Hst. apply update_one_with_count. intros d. unfold is_active. simpl.
      destruct st as [x|]; simpl; [|auto].
      intros E. apply String.eqb_eq in E. congruence. }
    destruct (truthy_str (u_status u)) as [x|].
    + destruct (String.eqb_spec x "active") as [Ex|Ex]; [simpl; lia|].
      pose proof (Hstep (Some x) ltac:(congruence)) as Hs.
      destruct (update_one_with (_id m) (set_updates u (Some x) now) s) as [s1 n].
      simpl in Hs.
      destruct (Nat.eqb n 0); [simpl; exact Hs|].
      destruct (find_one _ s1); simpl; exact Hs.
    + pose proof (Hstep None ltac:(discriminate)) as Hs.
      destruct (update_one_with (_id m) (set_updates u None now) s) as [s1 n].
      simpl in Hs.
      destruct (Nat.eqb n 0); [simpl; exact Hs|].
      destruct (find_one _ s1); simpl; exact Hs.
Qed.

Lemma update_one_with_map i f s m :
  NoDup (map _id s) -> In m s -> _id m = i ->
  update_one_with i f s =
  (map (fun d => if Nat.eqb (_id d) i then f d else d) s,
   if RiskModel_eq_dec (f m) m then 0%nat else 1%nat).
Proof.
  induction s as [|x rest IH]; simpl; intros Hnd Hin Hi; [contradiction|].
  inversion Hnd as [|? ? Hnotin Hnd']; subst.
  destruct (Nat.eqb_spec (_id x) (_id m)) as [E|E].
  - assert (x = m) as ->.
    { destruct Hin as [->|Hin]; [reflexivity|].
      exfalso. apply Hnotin. rewrite E. apply in_map. exact Hin. }
    f_equal. f_equal. symmetry. rewrite <- (map_id rest) at 2.
    apply map_ext_in. intros d Hd.
    destruct (Nat.eqb_spec (_id d) (_id m)) as [E'|]; [|reflexivity].
    exfalso. apply Hnotin. rewrite <- E'. apply in_map. exact Hd.
  - destruct Hin as [->|Hin]; [contradiction|].
    rewrite (IH Hnd' Hin eq_refl). reflexivity.
Qed.

Lemma count_active_drop (g : RiskModel -> RiskModel) s m :
  NoDup (map _id s) -> In m s -> is_active m = true -> is_active (g m) = false ->
  S (count_documents is_active
       (map (fun d => if Nat.eqb (_id d) (_id m) then g d else d) s)) =
  count_documents is_active s.
Proof.
  unfold count_documents. induction s as [|x rest IH]; simpl;
    intros Hnd Hin Ha Hg; [contradiction|].
  inversion Hnd as [|? ? Hnotin Hnd']; subst.
  destruct (Nat.eqb_spec (_id x) (_id m)) as [E|E].
  - assert (x = m) as ->.
    { destruct Hin as [->|Hin]; [reflexivity|].
      exfalso. apply Hnotin. rewrite E. apply in_map. exact Hin. }
    assert (Hr : map (fun d => if Nat.eqb (_id d) (_id m) then g d else d) rest = rest).
    { rewrite <- (map_id rest) at 2. apply map_ext_in. intros d Hd.
      destruct (Nat.eqb_spec (_id d) (_id m)) as [E'|]; [|reflexivity].
      exfalso. apply Hnotin. rewrite <- E'. apply in_map. exact Hd. }
    rewrite Hr, Hg, Ha. reflexivity.
  - destruct Hin as [->|Hin]; [contradiction|].
    destruct (is_active x); simpl; rewrite <- (IH Hnd' Hin Ha Hg); reflexivity.
Qed.

(** A request with status ["archived"] on an active latest version is
    applied in place: the model is archived even when it is the only
    active one, which [archive_risk_model] refuses. *)
Theorem update_archives_active model_id u now s m :
  NoDup (map _id s) ->
  find_one_latest (not_archived_query model_id) s = Some m ->
  status m = "active" -> u_status u = Some "archived" ->
  update_risk_model model_id u now s =
    (Ok (set_updates u (Some "archived") now m),
     map (fun d => if Nat.eqb (_id d) (_id m)
                   then set_updates u (Some "archived") now d else d) s) /\
  S (count_documents is_active (snd (update_risk_model model_id u now s))) =
    count_documents is_active s.
Proof.
  intros Hnd Hf Hst Hu.
  assert (Hin : In m s).
  { destruct (find_one_latest_spec _ _ _ Hf) as [Hin _]. exact Hin. }
  set (g := set_updates u (Some "archived") now).
  assert (Hres : update_risk_model model_id u now s =
    (Ok (g m), map (fun d => if Nat.eqb (_id d) (_id m) then g d else d) s)).
  { unfold update_risk_model. rewrite Hf, Hst, Hu. simpl.
    fold g. rewrite (update_one_with_map (_id m) g s m Hnd Hin eq_refl).
    destruct (RiskModel_eq_dec (g m) m) as [E|E].
    { exfalso. assert (Hs : status (g m) = status m) by (rewrite E; reflexivity).
      unfold g in Hs. simpl in Hs. rewrite Hst in Hs. discriminate. }
    simpl.
    rewrite (find_unique (fun d => Nat.eqb (_id d) (_id m)) _ (g m)).
    - reflexivity.
    - apply in_map_iff. exists m. split; [rewrite Nat.eqb_refl; reflexivity|exact Hin].
    - unfold g. simpl. apply Nat.eqb_refl.
    - intros d Hd Hq. apply in_map_iff in Hd as [x [<- Hx]].
      destruct (Nat.eqb_spec (_id x) (_id m)) as [E'|E'].
      + rewrite (store_id_unique s x m Hnd Hx Hin E'). reflexivity.
      + apply Nat.eqb_neq in E'. rewrite E' in Hq. discriminate. }
  split; [exact Hres|]. rewrite Hres. simpl.
  apply count_active_drop; auto.
  - unfold is_active. rewrite Hst. reflexivity.
Qed.

Lemma update_archives_active_witness :
  update_risk_model "m" archive_update 9 [demo_v1] =
    (Ok (set_updates archive_update (Some "archived") 9 demo_v1),
     [set_updates archive_update (Some "archived") 9 demo_v1]) /\
  count_documents is_active (snd (update_risk_model "m" archive_update 9 [demo_v1])) = 0%nat.
Proof.
  assert (Hnd : NoDup (map _id [demo_v1])) by (repeat constructor; simpl; tauto).
  destruct (update_archives_active "m" archive_update 9 [demo_v1] demo_v1
              Hnd eq_refl eq_refl eq_refl) as [E Hc].
  split.
  - rewrite E. reflexivity.
  - apply Nat.succ_inj. rewrite Hc. reflexivity.
Defined.

End ModelManagementExtraProofs.

(* ------------------------------------------------------------------------- *)
(** * Proofs: fraud detection *)

Module FraudDetectionProofs.
Import FraudDetection FraudDetectionFixtures.
Open Scope Q_scope.

(** ** Comparisons and Python's [min]/[max] *)

Lemma Qltb_true x y : Qltb x y = true -> x < y.
Proof.
  unfold Qltb. intros H. apply negb_true_iff in H.
  apply Qnot_le_lt. intros Hle. apply Qle_bool_iff in Hle. congruence.
Qed.

Lemma Qltb_false x y : Qltb x y = false -> y <= x.
Proof. unfold Qltb. intros H. apply negb_false_iff in H. apply Qle_bool_iff. exact H. Qed.

Lemma Qleb_true x y : Qleb x y = true -> x <= y.
Proof. apply Qle_bool_iff. Qed.

Lemma Qleb_false x y : Qleb x y = false -> y < x.
Proof.
  intros H. apply Qnot_le_lt. intros Hle. apply Qle_bool_iff in Hle.
  unfold Qleb in H. congruence.
Qed.

(** Case analysis on every comparison of the goal, each case recorded
    as a hypothesis over Q. *)
Ltac qcase :=
  match goal with
  | |- context [Qltb ?x ?y] =>
      let E := fresh "E" in
      destruct (Qltb x y) eqn:E;
      [apply Qltb_true in E | apply Qltb_false in E]
  | |- context [Qleb ?x ?y] =>
      let E := fresh "E" in
      destruct (Qleb x y) eqn:E;
      [apply Qleb_true in E | apply Qleb_false in E]
  end.

Ltac qcases := repeat qcase.

Lemma py_max_ge_l x y : x <= py_max x y.
Proof. unfold py_max. qcases; lra. Qed.

Lemma py_max_ge_r x y : y <= py_max x y.
Proof. unfold py_max. qcases; lra. Qed.

Lemma py_max_cases x y : py_max x y = x \/ py_max x y = y.
Proof. unfold py_max. destruct (Qltb x y); auto. Qed.

Lemma py_min_le_l x y : py_min x y <= x.
Proof. unfold py_min. qcases; lra. Qed.

Lemma py_min_le_r x y : py_min x y <= y.
Proof. unfold py_min. qcases; lra. Qed.

Lemma py_min_cases x y : py_min x y = x \/ py_min x y = y.
Proof. unfold py_min. destruct (Qltb y x); auto. Qed.

Lemma positive_or_zero_id r : 0 <= r -> positive_or_zero r == r.
Proof. unfold positive_or_zero. intros H. qcases; lra. Qed.

(** ** The aggregate score *)

Lemma Qmax_cases x y : Qmax x y == x \/ Qmax x y == y.
Proof. destruct (Q.max_spec x y) as [[_ E]|[_ E]]; rewrite E; [right|left]; reflexivity. Qed.

Lemma code_max_char a l d v :
  0 <= a -> 0 <= l -> 0 <= d -> 0 <= v ->
  let M := py_max (py_max (py_max (py_max (positive_or_zero a) (positive_or_zero l))
                                  (positive_or_zero d)) (positive_or_zero v))
                  (positive_or_zero 0) in
  a <= M /\ l <= M /\ d <= M /\ v <= M /\ (M == a \/ M == l \/ M == d \/ M == v \/ M == 0).
Proof.
  intros Ha Hl Hd Hv M.
  pose proof (positive_or_zero_id a Ha). pose proof (positive_or_zero_id l Hl).
  pose proof (positive_or_zero_id d Hd). pose proof (positive_or_zero_id v Hv).
  assert (Hz : positive_or_zero 0 == 0) by (apply positive_or_zero_id; lra).
  pose proof (py_max_ge_l (positive_or_zero a) (positive_or_zero l)).
  pose proof (py_max_ge_r (positive_or_zero a) (positive_or_zero l)).
  assert (C1 := py_max_cases (positive_or_zero a) (positive_or_zero l)).
  set (m1 := py_max (positive_or_zero a) (positive_or_zero l)) in *.
  pose proof (py_max_ge_l m1 (positive_or_zero d)).
  pose proof (py_max_ge_r m1 (positive_or_zero d)).
  assert (C2 := py_max_cases m1 (positive_or_zero d)).
  set (m2 := py_max m1 (positive_or_zero d)) in *.
  pose proof (py_max_ge_l m2 (positive_or_zero v)).
  pose proof (py_max_ge_r m2 (positive_or_zero v)).
  assert (C3 := py_max_cases m2 (positive_or_zero v)).
  set (m3 := py_max m2 (positive_or_zero v)) in *.
  pose proof (py_max_ge_l m3 (positive_or_zero 0)).
  pose proof (py_max_ge_r m3 (positive_or_zero 0)).
  assert (C4 := py_max_cases m3 (positive_or_zero 0)).
  change (py_max m3 (positive_or_zero 0)) with M in H9, H10, C4.
  repeat split; try lra.
  destruct C4 as [C4|C4]; rewrite C4; [|do 4 right; lra].
  destruct C3 as [C3|C3]; rewrite C3; [|do 3 right; left; lra].
  destruct C2 as [C2|C2]; rewrite C2; [|do 2 right; left; lra].
  destruct C1 as [C1|C1]; rewrite C1; [left; lra | right; left; lra].
Qed.

Lemma spec_max_char a l d v :
  0 <= a -> 0 <= l -> 0 <= d -> 0 <= v ->
  let M := Qmax (Qmax (Qmax (Qmax a l) d) v) 0 in
  a <= M /\ l <= M /\ d <= M /\ v <= M /\ (M == a \/ M == l \/ M == d \/ M == v \/ M == 0).
Proof.
  intros Ha Hl Hd Hv M.
  pose proof (Q.le_max_l a l). pose proof (Q.le_max_r a l).
  assert (C1 := Qmax_cases a l). set (m1 := Qmax a l) in *.
  pose proof (Q.le_max_l m1 d). pose proof (Q.le_max_r m1 d).
  assert (C2 := Qmax_cases m1 d). set (m2 := Qmax m1 d) in *.
  pose proof (Q.le_max_l m2 v). pose proof (Q.le_max_r m2 v).
  assert (C3 := Qmax_cases m2 v). set (m3 := Qmax m2 v) in *.
  assert (G1 := Q.le_max_l m3 0). assert (G2 := Q.le_max_r m3 0).
  assert (C4 := Qmax_cases m3 0). change (Qmax m3 0) with M in G1, G2, C4.
  repeat split; lra.
Qed.

Lemma max_char_unique a l d v X Y :
  0 <= a -> 0 <= l -> 0 <= d -> 0 <= v ->
  a <= X /\ l <= X /\ d <= X /\ v <= X /\ (X == a \/ X == l \/ X == d \/ X == v \/ X == 0) ->
  a <= Y /\ l <= Y /\ d <= Y /\ v <= Y /\ (Y == a \/ Y == l \/ Y == d \/ Y == v \/ Y == 0) ->
  X == Y.
Proof.
  intros ? ? ? ? (? & ? & ? & ? & HX) (? & ? & ? & ? & HY).
  destruct HX as [|[|[|[|]]]]; destruct HY as [|[|[|[|]]]]; lra.
Qed.

Lemma calculate_risk_score_spec a l d v base :
  0 <= a <= 1 -> 0 <= l <= 1 -> 0 <= d <= 1 -> 0 <= v <= 1 -> 0 <= base <= 100 ->
  calculate_risk_score a l d v 0 base == Aggregation.aggregate_spec a l d v base.
Proof.
  intros Ha Hl Hd Hv Hb.
  assert (HC := code_max_char a l d v ltac:(lra) ltac:(lra) ltac:(lra) ltac:(lra)).
  assert (HS := spec_max_char a l d v ltac:(lra) ltac:(lra) ltac:(lra) ltac:(lra)).
  cbv zeta in HC, HS.
  assert (E := max_char_unique a l d v _ _ ltac:(lra) ltac:(lra) ltac:(lra) ltac:(lra) HC HS).
  unfold calculate_risk_score, Aggregation.aggregate_spec. cbv zeta.
  set (MC := py_max _ (positive_or_zero 0)) in *.
  set (MS := Qmax _ 0) in *.
  destruct HC as (? & ? & ? & ? & _).
  unfold WEIGHT_AMOUNT, WEIGHT_LOCATION, WEIGHT_DEVICE, WEIGHT_VELOCITY, WEIGHT_PATTERN.
  destruct (Qle_bool 80 (100 * MS)) eqn:ES;
    [apply Qle_bool_iff in ES | assert (ES' : ~ 80 <= 100 * MS) by
       (intros X; apply Qle_bool_iff in X; congruence)];
  qcases; try lra;
  match goal with
  | |- _ == Qmax 0 (Qmin ?c 100) =>
      destruct (Q.min_spec c 100) as [[? Em]|[? Em]]; rewrite Em;
      destruct (Q.max_spec 0 (Qmin c 100)) as [[? Ex]|[? Ex]]; rewrite Em in Ex; rewrite Ex
  end; unfold py_min; qcases; lra.
Qed.

(** C2: with the detector risks zeroed when their detector reports no
    anomaly, each zeroed risk in [0,1] and the customer baseline in
    [0,100], [_calculate_risk_score] equals the specified aggregate (default
    weights, the [maxFactor >= 80] switch, clamp to [0,100]); the assessment
    reports it rounded to two decimals; [amount_risk = 1.0] alone with
    baseline 0 gives exactly 42.5, level [medium]. *)
Theorem aggregate_score_formula (ra rl rd rv : bool * Q) (base : Q) :
  0 <= risk_if ra <= 1 -> 0 <= risk_if rl <= 1 -> 0 <= risk_if rd <= 1 ->
  0 <= risk_if rv <= 1 -> 0 <= base <= 100 ->
  calculate_risk_score (risk_if ra) (risk_if rl) (risk_if rd) (risk_if rv) 0 base ==
    Aggregation.aggregate_spec (risk_if ra) (risk_if rl) (risk_if rd) (risk_if rv) base /\
  score (assess ra rl rd rv base) =
    round2 (calculate_risk_score (risk_if ra) (risk_if rl) (risk_if rd) (risk_if rv) 0 base) /\
  calculate_risk_score 1 0 0 0 0 0 == 85#2 /\
  determine_risk_level (calculate_risk_score 1 0 0 0 0 0) = "medium".
Proof.
  intros Ha Hl Hd Hv Hb.
  split; [apply calculate_risk_score_spec; assumption|].
  split; [reflexivity|].
  split; reflexivity.
Qed.

Lemma aggregate_score_formula_witness :
  (0 <= risk_if (true, 1) <= 1 /\ 0 <= risk_if (false, 1#2) <= 1 /\
   0 <= risk_if (true, 9#10) <= 1 /\ 0 <= risk_if (true, 0) <= 1 /\ 0 <= 30 <= 100) /\
  calculate_risk_score 1 0 (9#10) 0 0 30 ==
    Aggregation.aggregate_spec 1 0 (9#10) 0 30.
Proof.
  assert (H : 0 <= risk_if (true, 1) <= 1 /\ 0 <= risk_if (false, 1#2) <= 1 /\
              0 <= risk_if (true, 9#10) <= 1 /\ 0 <= risk_if (true, 0) <= 1 /\
              0 <= 30 <= 100) by (vm_compute; repeat split; discriminate).
  split; [exact H|].
  destruct H as (H1 & H2 & H3 & H4 & H5).
  exact (proj1 (aggregate_score_formula (true, 1) (false, 1#2) (true, 9#10) (true, 0) 30
                  H1 H2 H3 H4 H5)).
Defined.

(** ** Short-circuits of [evaluate_transaction] *)

Lemma find_none_all {A} (f : A -> bool) (l : list A) :
  (forall x, In x l -> f x = false) -> find f l = None.
Proof.
  induction l as [|x rest IH]; simpl; intros H; [reflexivity|].
  rewrite (H x (or_introl eq_refl)). apply IH. auto.
Qed.






(** ** The amount detector *)

Lemma Qltb_of_lt x y : x < y -> Qltb x y = true.
Proof.
  intros H. unfold Qltb. apply negb_true_iff.
  destruct (Qle_bool y x) eqn:E; [|reflexivity].
  apply Qle_bool_iff in E. lra.
Qed.

Lemma Qeq_bool_of_pos x : 0 < x -> Qeq_bool x 0 = false.
Proof.
  intros H. destruct (Qeq_bool x 0) eqn:E; [|reflexivity].
  apply Qeq_bool_iff in E. lra.
Qed.

Lemma Qdiv_nonneg x y : 0 <= x -> 0 <= y -> 0 <= x / y.
Proof. intros. apply Qmult_le_0_compat; [|apply Qinv_le_0_compat]; assumption. Qed.

Lemma py_abs_nonneg x : 0 <= py_abs x.
Proof. unfold py_abs. qcases; lra. Qed.

(** On a numeric history with [avg > 0] and [std > 0] the detector is the
    closed formula of the source. *)
Lemma check_amount_nondegenerate tx c a avg std :
  tx_amount tx = PNum a -> c_avg_amount c = PNum avg -> c_std_amount c = PNum std ->
  0 < avg -> 0 < std ->
  let z := py_abs (a - avg) / std in
  let r := a / avg in
  check_amount_anomaly tx c =
    (Qltb 3 z || Qltb 5 r,
     if Qleb 10 r then 1
     else if Qleb 5 r then (85#100) + ((r - 5) / 5) * (15#100)
     else py_min 1 (z / (3 * 2))).
Proof.
  intros Ha Havg Hstd Hpa Hps z r.
  unfold check_amount_anomaly, catch_detector, check_amount_body.
  rewrite Ha, Havg, Hstd. simpl.
  rewrite (Qeq_bool_of_pos avg Hpa), (Qeq_bool_of_pos std Hps). simpl.
  rewrite (Qltb_of_lt 0 std Hps). simpl.
  rewrite (Qltb_of_lt 0 avg Hpa). reflexivity.
Qed.

Lemma amount_metrics_some tx c z r :
  DetectorMetrics.amount_metrics tx c = Some (z, r) ->
  check_amount_anomaly tx c =
    (Qltb 3 z || Qltb 5 r,
     if Qleb 10 r then 1
     else if Qleb 5 r then (85#100) + ((r - 5) / 5) * (15#100)
     else py_min 1 (z / (3 * 2))).
Proof.
  unfold DetectorMetrics.amount_metrics.
  destruct (tx_amount tx) as [a| |] eqn:Ha; try discriminate.
  destruct (c_avg_amount c) as [avg| |] eqn:Havg; try discriminate.
  destruct (c_std_amount c) as [std| |] eqn:Hstd; try discriminate.
  destruct (Qltb 0 avg) eqn:E1; [|discriminate].
  destruct (Qltb 0 std) eqn:E2; [|discriminate].
  apply Qltb_true in E1, E2. simpl. intros H. injection H as <- <-.
  exact (check_amount_nondegenerate tx c a avg std Ha Havg Hstd E1 E2).
Qed.

(** C5 (counterexample): with [avg = 100], [std = 10] and [amount = 700]
    (ratio 7) the amount risk is 0.91, not 0.88. *)
Lemma amount_ratio7_risk :
  snd (check_amount_anomaly tx_ratio7 profile_c1) == 91#100 /\
  ~ (snd (check_amount_anomaly tx_ratio7 profile_c1) == 88#100).
Proof.
  split; [reflexivity|]. vm_compute. discriminate.
Qed.

(** C5 (amended): on a non-degenerate history ([avg > 0], [std > 0]) a
    ratio [amount/avg] of exactly 10 gives amount risk 1.0 and a ratio of
    exactly 7 gives [0.85 + (7 - 5)/5 * 0.15 = 0.91]. *)
Theorem amount_ratio_risk tx c a avg std :
  tx_amount tx = PNum a -> c_avg_amount c = PNum avg -> c_std_amount c = PNum std ->
  0 < avg -> 0 < std ->
  (a / avg == 10 -> snd (check_amount_anomaly tx c) == 1) /\
  (a / avg == 7 -> snd (check_amount_anomaly tx c) == 91#100).
Proof.
  intros Ha Havg Hstd Hpa Hps.
  rewrite (check_amount_nondegenerate tx c a avg std Ha Havg Hstd Hpa Hps). simpl.
  set (r := a / avg).
  split; intros Hr.
  - destruct (Qleb 10 r) eqn:E; [reflexivity|]. apply Qleb_false in E. lra.
  - destruct (Qleb 10 r) eqn:E; [apply Qleb_true in E; lra|].
    destruct (Qleb 5 r) eqn:E'; [|apply Qleb_false in E'; lra].
    rewrite Hr. reflexivity.
Qed.

Lemma amount_ratio_risk_witness :
  snd (check_amount_anomaly tx_ratio7 profile_c1) == 91#100.
Proof.
  assert (Hpa : 0 < 100) by reflexivity. assert (Hps : 0 < 10) by reflexivity.
  exact (proj2 (amount_ratio_risk tx_ratio7 profile_c1 700 100 10 eq_refl eq_refl eq_refl
                  Hpa Hps) eq_refl).
Defined.

(** ** Ranges and monotonicity of the detectors *)

Lemma amount_risk_expr_bound z r :
  0 <= z ->
  0 <= (if Qleb 10 r then 1
        else if Qleb 5 r then (85#100) + ((r - 5) / 5) * (15#100)
        else py_min 1 (z / (AMOUNT_THRESHOLD_MULTIPLIER * 2))) <= 1.
Proof.
  intros Hz.
  assert (Hm : (r - 5) / 5 * (15#100) == (r - 5) * (3#100)) by field.
  assert (Hz6 : 0 <= z / (AMOUNT_THRESHOLD_MULTIPLIER * 2))
    by (apply Qdiv_nonneg; [exact Hz | unfold AMOUNT_THRESHOLD_MULTIPLIER; lra]).
  qcases; try lra.
  pose proof (py_min_le_l 1 (z / (AMOUNT_THRESHOLD_MULTIPLIER * 2))).
  destruct (py_min_cases 1 (z / (AMOUNT_THRESHOLD_MULTIPLIER * 2))) as [C|C];
    rewrite C in *; lra.
Qed.

Lemma check_amount_bound tx c : 0 <= snd (check_amount_anomaly tx c) <= 1.
Proof.
  unfold check_amount_anomaly, catch_detector, check_amount_body.
  destruct (py_eq_zero (c_avg_amount c) || py_eq_zero (c_std_amount c)); [simpl; lra|].
  destruct (c_std_amount c) as [s| |]; simpl; [|lra|lra].
  destruct (Qltb 0 s) eqn:Es; simpl.
  - apply Qltb_true in Es.
    destruct (py_sub (tx_amount tx) (c_avg_amount c)) as [dd|]; simpl; [|lra].
    destruct (Qeq_bool s 0); simpl; [lra|].
    assert (Hz : 0 <= py_abs dd / s) by (apply Qdiv_nonneg; [apply py_abs_nonneg | lra]).
    destruct (py_gt (c_avg_amount c) 0) as [ap|]; simpl; [|lra].
    destruct (if ap then py_div_val (tx_amount tx) (c_avg_amount c) else Ret 0) as [r|];
      simpl; [|lra].
    apply amount_risk_expr_bound. exact Hz.
  - destruct (py_gt (c_avg_amount c) 0) as [ap|]; simpl; [|lra].
    destruct (if ap then py_div_val (tx_amount tx) (c_avg_amount c) else Ret 0) as [r|];
      simpl; [|lra].
    apply amount_risk_expr_bound. lra.
Qed.

Section LocationDetector.

Variable haversine : Q -> Q -> Q -> Q -> Exc Q.
Hypothesis haversine_nonneg :
  forall x1 y1 x2 y2 d, haversine x1 y1 x2 y2 = Ret d -> 0 <= d.

Lemma min_distance_nonneg tc locs acc m :
  (forall x, acc = Some x -> 0 <= x) ->
  min_distance haversine tc locs acc = Ret m -> forall x, m = Some x -> 0 <= x.
Proof.
  revert acc. induction locs as [|l rest IH]; simpl; intros acc Hacc H.
  - injection H as <-. exact Hacc.
  - destruct (coords_or_default l) as [|x2 [|y2 [|]]];
      destruct tc as [|x1 [|y1 [|]]]; try (eapply IH; eauto; fail).
    destruct (haversine x1 y1 x2 y2) as [d|] eqn:Hd; simpl in H; [|discriminate].
    eapply IH; [|exact H]. intros x Hx. injection Hx as <-.
    pose proof (haversine_nonneg _ _ _ _ _ Hd).
    destruct acc as [a|]; simpl; [|assumption].
    specialize (Hacc a eq_refl).
    destruct (py_min_cases a d) as [C|C]; rewrite C; assumption.
Qed.

Lemma check_location_bound tx c : 0 <= snd (check_location_anomaly haversine tx c) <= 1.
Proof.
  unfold check_location_anomaly, catch_detector, check_location_body.
  destruct (negb _); [simpl; lra|].
  destruct (c_usual_locations c) as [|l0 locs]; [simpl; lra|].
  cbv beta iota zeta.
  lazymatch goal with
  | |- context [min_distance ?h ?tc ?l ?a] =>
      destruct (min_distance h tc l a) as [md|] eqn:Em; simpl; [|lra]
  end.
  assert (Hmd := min_distance_nonneg _ _ _ _ (fun x (H : None = Some x) =>
                   ltac:(discriminate)) Em).
  destruct md as [d|]; simpl.
  - specialize (Hmd d eq_refl). unfold MAX_LOCATION_DISTANCE_KM.
    destruct (Qltb 500 d); simpl.
    + pose proof (py_max_ge_l (85#100) (py_min 1 (d / (500 * (12#10))))).
      pose proof (py_min_le_l 1 (d / (500 * (12#10)))).
      destruct (py_max_cases (85#100) (py_min 1 (d / (500 * (12#10))))) as [C|C];
        rewrite C in *; lra.
    + pose proof (py_min_le_l (1#2) (d / 500)).
      assert (0 <= d / 500) by (apply Qdiv_nonneg; lra).
      destruct (py_min_cases (1#2) (d / 500)) as [C|C]; rewrite C in *; lra.
  - unfold py_max. qcases; lra.
Qed.

Lemma location_metric_flag tx c m :
  DetectorMetrics.location_metric haversine tx c = Some (Ret m) ->
  fst (check_location_anomaly haversine tx c) = ext_gt m MAX_LOCATION_DISTANCE_KM.
Proof.
  unfold DetectorMetrics.location_metric, check_location_anomaly, catch_detector,
    check_location_body.
  destruct (negb _); [discriminate|].
  destruct (c_usual_locations c) as [|l0 locs]; [discriminate|].
  intros H. cbv beta iota zeta in H |- *.
  lazymatch goal with
  | |- context [min_distance ?h ?tc ?l ?a] =>
      replace (min_distance h tc l a) with (Ret m) by congruence
  end.
  simpl.
  destruct (ext_gt m MAX_LOCATION_DISTANCE_KM); reflexivity.
Qed.

End LocationDetector.

Lemma check_device_bound tx c : 0 <= snd (check_device_anomaly tx c) <= 1.
Proof.
  unfold check_device_anomaly, catch_detector, check_device_body.
  destruct (String.eqb (tx_device_id tx) ""); [simpl; lra|].
  destruct (scan_devices _ _ _ _) as [[k ip]|]; simpl; [|lra].
  destruct k, ip; simpl; lra.
Qed.

Lemma inject_nat_nonneg n : 0 <= inject_Z (Z.of_nat n).
Proof. change 0 with (inject_Z 0). rewrite <- Zle_Qle. lia. Qed.

Lemma check_velocity_bound fromisoformat now txns tx customer_id :
  0 <= snd (check_transaction_velocity fromisoformat now txns tx customer_id) <= 1.
Proof.
  unfold check_transaction_velocity, catch_detector, check_velocity_body.
  destruct (match tx_timestamp tx with
            | TsDate t => Ret t | TsStr str => fromisoformat str | TsMissing => Ret now
            end) as [t|]; simpl; [|lra].
  destruct txns as [recs|]; simpl; [|lra].
  set (n := List.length _).
  assert (0 <= inject_Z (Z.of_nat n) / (inject_Z (Z.of_nat VELOCITY_THRESHOLD) * (3#2)))
    by (apply Qdiv_nonneg; [apply inject_nat_nonneg | unfold VELOCITY_THRESHOLD; vm_compute; discriminate]).
  pose proof (py_min_le_l 1 (inject_Z (Z.of_nat n) /
                             (inject_Z (Z.of_nat VELOCITY_THRESHOLD) * (3#2)))).
  change (inject_Z 5) with (inject_Z (Z.of_nat VELOCITY_THRESHOLD)).
  destruct (py_min_cases 1 (inject_Z (Z.of_nat n) /
                            (inject_Z (Z.of_nat VELOCITY_THRESHOLD) * (3#2)))) as [C|C];
    rewrite C in *; lra.
Qed.

Lemma window_count_flag fromisoformat now txns tx customer_id n :
  DetectorMetrics.window_count fromisoformat now txns tx customer_id = Ret n ->
  fst (check_transaction_velocity fromisoformat now txns tx customer_id) =
    Nat.leb VELOCITY_THRESHOLD n.
Proof.
  unfold DetectorMetrics.window_count, check_transaction_velocity, catch_detector,
    check_velocity_body.
  destruct (match tx_timestamp tx with
            | TsDate t => Ret t | TsStr str => fromisoformat str | TsMissing => Ret now
            end) as [t|]; simpl; [|discriminate].
  destruct txns as [recs|]; simpl; [|discriminate].
  intros H. injection H as <-. reflexivity.
Qed.

Lemma amount_flag_mono z1 r1 z2 r2 :
  z1 <= z2 -> r1 <= r2 ->
  (Qltb 3 z1 || Qltb 5 r1) = true -> (Qltb 3 z2 || Qltb 5 r2) = true.
Proof.
  intros Hz Hr. qcases; simpl; intros H; try reflexivity; try discriminate H;
    exfalso; lra.
Qed.

Lemma ext_gt_mono m1 m2 q :
  DetectorMetrics.dist_le m1 m2 -> ext_gt m1 q = true -> ext_gt m2 q = true.
Proof.
  destruct m1 as [x|], m2 as [y|]; simpl; try tauto.
  intros Hle. qcases; intros H; try reflexivity; try discriminate H; exfalso; lra.
Qed.

(** C4: every detector's risk lies in [[0, 1]] (given a haversine that
    returns non-negative distances), and the anomalous flag is monotone in
    the detector's metric: the z-score and ratio for the amount detector,
    the minimum distance (with [inf] on top) for the location detector,
    the window count for the velocity detector. *)
Theorem detectors_bounded_monotone
  (haversine : Q -> Q -> Q -> Q -> Exc Q)
  (haversine_nonneg : forall a b c d x, haversine a b c d = Ret x -> 0 <= x)
  (fromisoformat : string -> Exc Z) (now : Z) :
  (forall tx c,
     0 <= snd (check_amount_anomaly tx c) <= 1 /\
     0 <= snd (check_location_anomaly haversine tx c) <= 1 /\
     0 <= snd (check_device_anomaly tx c) <= 1 /\
     forall txns customer_id,
       0 <= snd (check_transaction_velocity fromisoformat now txns tx customer_id) <= 1) /\
  (forall tx1 c1 tx2 c2 z1 r1 z2 r2,
     DetectorMetrics.amount_metrics tx1 c1 = Some (z1, r1) ->
     DetectorMetrics.amount_metrics tx2 c2 = Some (z2, r2) ->
     z1 <= z2 -> r1 <= r2 ->
     fst (check_amount_anomaly tx1 c1) = true ->
     fst (check_amount_anomaly tx2 c2) = true) /\
  (forall tx1 c1 tx2 c2 m1 m2,
     DetectorMetrics.location_metric haversine tx1 c1 = Some (Ret m1) ->
     DetectorMetrics.location_metric haversine tx2 c2 = Some (Ret m2) ->
     DetectorMetrics.dist_le m1 m2 ->
     fst (check_location_anomaly haversine tx1 c1) = true ->
     fst (check_location_anomaly haversine tx2 c2) = true) /\
  (forall txns1 tx1 cid1 txns2 tx2 cid2 n1 n2,
     DetectorMetrics.window_count fromisoformat now txns1 tx1 cid1 = Ret n1 ->
     DetectorMetrics.window_count fromisoformat now txns2 tx2 cid2 = Ret n2 ->
     (n1 <= n2)%nat ->
     fst (check_transaction_velocity fromisoformat now txns1 tx1 cid1) = true ->
     fst (check_transaction_velocity fromisoformat now txns2 tx2 cid2) = true).
Proof.
  split; [|split; [|split]].
  - intros tx c. split; [apply check_amount_bound|].
    split; [apply check_location_bound; exact haversine_nonneg|].
    split; [apply check_device_bound|].
    intros; apply check_velocity_bound.
  - intros tx1 c1 tx2 c2 z1 r1 z2 r2 H1 H2 Hz Hr.
    rewrite (amount_metrics_some _ _ _ _ H1), (amount_metrics_some _ _ _ _ H2); simpl.
    apply amount_flag_mono; assumption.
  - intros tx1 c1 tx2 c2 m1 m2 H1 H2 Hle.
    rewrite (location_metric_flag _ _ _ _ H1), (location_metric_flag _ _ _ _ H2).
    apply ext_gt_mono; assumption.
  - intros txns1 tx1 cid1 txns2 tx2 cid2 n1 n2 H1 H2 Hle.
    rewrite (window_count_flag _ _ _ _ _ _ H1), (window_count_flag _ _ _ _ _ _ H2).
    intros H. apply Nat.leb_le in H. apply Nat.leb_le. lia.
Qed.

Lemma detectors_bounded_monotone_witness :
  (forall a b c d x, no_distance a b c d = Ret x -> 0 <= x) /\
  (forall tx c, 0 <= snd (check_location_anomaly no_distance tx c) <= 1).
Proof.
  assert (Hn : forall a b c d x, no_distance a b c d = Ret x -> 0 <= x).
  { intros a b c d x H. unfold no_distance in H. injection H as <-. lra. }
  split; [exact Hn|].
  intros tx c.
  exact (proj1 (proj2 (proj1 (detectors_bounded_monotone no_distance Hn no_iso 0) tx c))).
Defined.

(** C9 (code bug): with one high-risk neighbour whose weight
    [finalSimilarity * (1 + 0.1 * flags)] is below 1 (vector score 0.5,
    risk score 80, no flags, equal amounts: weight 0.65), the code divides
    the weighted sum by [max(1, total_weight)] and returns 0.57, while the
    weighted mean plus the boost is 0.8 + 0.05 = 0.85. *)
Theorem high_bucket_not_weighted_mean (pow_1_5 : Q -> Exc Q) :
  find_similar_risk pow_1_5 (Ret [high_neighbor]) 0 100 == 57#100 /\
  SimilaritySpec.spec_high_risk_score 100 [high_neighbor] == 85#100.
Proof. split; vm_compute; reflexivity. Qed.

(** C10: a detector whose body raises returns [(False, 0.0)]; in
    particular, when the transactions query fails, [evaluate_transaction]
    still returns the assessment of the other detectors, with the
    velocity factor at [(False, 0.0)]. *)
Theorem detector_errors_contained
  (haversine : Q -> Q -> Q -> Q -> Exc Q) (fromisoformat : string -> Exc Z)
  (now : Z) (customers : list Customer) (txns : Exc (list TxnRecord))
  (tx : Transaction) (c : Customer) (e : string) :
  (check_amount_body tx c = Raise e -> check_amount_anomaly tx c = (false, 0)) /\
  (check_location_body haversine tx c = Raise e ->
     check_location_anomaly haversine tx c = (false, 0)) /\
  (check_device_body tx c = Raise e -> check_device_anomaly tx c = (false, 0)) /\
  (forall customer_id,
     check_velocity_body fromisoformat now txns tx customer_id = Raise e ->
     check_transaction_velocity fromisoformat now txns tx customer_id = (false, 0)) /\
  (forall customer_id,
     tx_customer_id tx = Some customer_id -> customer_id <> "" ->
     find_customer customers customer_id = Some c ->
     check_velocity_body fromisoformat now txns tx customer_id = Raise e ->
     evaluate_transaction haversine fromisoformat now (Ret customers) txns tx =
       assess (check_amount_anomaly tx c) (check_location_anomaly haversine tx c)
              (check_device_anomaly tx c) (false, 0) (customer_risk_score c)).
Proof.
  assert (Hv : forall customer_id,
            check_velocity_body fromisoformat now txns tx customer_id = Raise e ->
            check_transaction_velocity fromisoformat now txns tx customer_id = (false, 0)).
  { intros customer_id H. unfold check_transaction_velocity. rewrite H. reflexivity. }
  split; [intros H; unfold check_amount_anomaly; rewrite H; reflexivity|].
  split; [intros H; unfold check_location_anomaly; rewrite H; reflexivity|].
  split; [intros H; unfold check_device_anomaly; rewrite H; reflexivity|].
  split; [exact Hv|].
  intros customer_id Hcid Hne Hf Hbody.
  unfold evaluate_transaction, lookup_customer. rewrite Hcid.
  destruct (String.eqb_spec customer_id "") as [Heq|_]; [contradiction|].
  rewrite Hf, (Hv customer_id Hbody). reflexivity.
Qed.

Lemma detector_errors_contained_witness :
  check_velocity_body no_iso 0 txns_unreachable tx_c1 "c1" =
    Raise "ServerSelectionTimeoutError" /\
  evaluate_transaction no_distance no_iso 0 (Ret [profile_c1]) txns_unreachable tx_c1 =
    assess (check_amount_anomaly tx_c1 profile_c1)
           (check_location_anomaly no_distance tx_c1 profile_c1)
           (check_device_anomaly tx_c1 profile_c1) (false, 0)
           (customer_risk_score profile_c1).
Proof.
  assert (Hb : check_velocity_body no_iso 0 txns_unreachable tx_c1 "c1" =
                 Raise "ServerSelectionTimeoutError") by reflexivity.
  split; [exact Hb|].
  exact (proj2 (proj2 (proj2 (proj2
           (detector_errors_contained no_distance no_iso 0 [profile_c1]
              txns_unreachable tx_c1 profile_c1 "ServerSelectionTimeoutError"))))
           "c1" eq_refl ltac:(discriminate) ltac:(vm_compute; reflexivity) Hb).
Defined.

End FraudDetectionProofs.

(* ------------------------------------------------------------------------- *)
(** * Further properties of the fraud detection service *)

Module FraudDetectionExtraProofs.
Import FraudDetection FraudDetectionFixtures FraudDetectionProofs.
Open Scope Q_scope.

(** ** [_update_customer_risk_profile] *)


Lemma update_first_doc_none q f docs :
  (forall d, In d docs -> doc_with_id q d = false) -> update_first_doc q f docs = docs.
Proof.
  induction docs as [|d rest IH]; simpl; intros H; [reflexivity|].
  pose proof (H d (or_introl eq_refl)) as Hd. unfold doc_with_id in Hd. rewrite Hd.
  f_equal. apply IH. auto.
Qed.


(** When the customer is found only by its [_id] as a string or by its
    account number, the update filters on the original [query_id], which
    no document has: the profile update is silently lost. *)
Theorem profile_update_dropped customer_id flags now docs :
  (forall d, In d docs ->
     doc_with_id (if is_valid_oid customer_id then OId customer_id else SId customer_id) d
     = false) ->
  (exists d, In d docs /\
     ((is_valid_oid customer_id = true /\ doc_with_id (SId customer_id) d = true) \/
      doc_with_account customer_id d = true)) ->
  update_customer_risk_profile customer_id flags now docs = docs.
Proof.
  intros Hno [d [Hd Hfound]]. unfold update_customer_risk_profile.
  rewrite (find_none_all _ _ Hno).
  destruct (if is_valid_oid customer_id
            then find (doc_with_id (SId customer_id)) docs else None) as [x|] eqn:Es.
  - apply update_first_doc_none. exact Hno.
  - destruct (find (doc_with_account customer_id) docs) as [y|] eqn:Ea.
    + apply update_first_doc_none. exact Hno.
    + exfalso. destruct Hfound as [[Hv Hs]|Ha].
      * rewrite Hv in Es. rewrite (find_none _ _ Es d Hd) in Hs. discriminate.
      * rewrite (find_none _ _ Ea d Hd) in Ha. discriminate.
Qed.

Lemma profile_update_dropped_witness :
  update_customer_risk_profile "ACC-2" ["unusual_amount"] 500 [doc_c1; doc_c2] =
    [doc_c1; doc_c2].
Proof.
  apply profile_update_dropped.
  - intros d [<-|[<-|[]]]; reflexivity.
  - exists doc_c2. split; [simpl; auto|]. right. reflexivity.
Defined.



Lemma add_to_set_spec arr each :
  exists added, add_to_set arr each = app (get_or arr []) added /\
    (NoDup (get_or arr []) -> NoDup (add_to_set arr each)) /\
    (forall f, In f (add_to_set arr each) <-> In f (get_or arr []) \/ In f each).
Proof.
  unfold add_to_set. generalize (get_or arr []) as acc.
  induction each as [|f rest IH]; simpl; intros acc.
  - exists []. rewrite app_nil_r. repeat split; auto. intros [H|[]]; exact H.
  - destruct (existsb (String.eqb f) acc) eqn:Ef.
    + destruct (IH acc) as [added [Eq [Hnd Hin]]]. exists added.
      repeat split; auto.
      * intros H. apply Hin in H. tauto.
      * intros [H|[<-|H]]; apply Hin; auto.
        left. apply existsb_exists in Ef as [g [Hg Eg]].
        apply String.eqb_eq in Eg. subst. exact Hg.
    + destruct (IH (app acc [f])) as [added [Eq [Hnd Hin]]].
      exists (f :: added). split; [rewrite Eq, <- app_assoc; reflexivity|]. split.
      * intros H. apply Hnd. apply NoDup_app; [exact H|constructor; [intros []|constructor]|].
        intros x Hx [Hfx|[]]. subst x. assert (existsb (String.eqb f) acc = true).
        { apply existsb_exists. exists f. split; [exact Hx|apply String.eqb_refl]. }
        congruence.
      * intros g. rewrite Hin, in_app_iff. simpl. intuition.
Qed.

(** After the update, the profile's risk factors are the earlier ones
    followed by the new flags not yet present: nothing is lost, every flag
    is recorded, and an array without duplicates stays without
    duplicates. The last assessment time is set and the score grows by
    [2.5] per flag. *)
Theorem profile_update_fields flags now d :
  let d' := apply_profile_update flags now d in
  let old := get_or (cd_risk_factors d) [] in
  (exists added, cd_risk_factors d' = Some (app old added)) /\
  (forall f, In f (get_or (cd_risk_factors d') []) <-> In f old \/ In f flags) /\
  (NoDup old -> NoDup (get_or (cd_risk_factors d') [])) /\
  cd_last_risk_assessment d' = Some now /\
  c_overall_risk_score (cd_customer d') =
    Some (get_or (c_overall_risk_score (cd_customer d)) 0 +
          inject_Z (Z.of_nat (List.length flags)) * (5#2)).
Proof.
  intros d' old. destruct (add_to_set_spec (cd_risk_factors d) flags) as [added [Eq [Hnd Hin]]].
  split; [exists added; simpl; rewrite Eq; reflexivity|].
  split; [exact Hin|]. split; [exact Hnd|]. split; reflexivity.
Qed.

(** ** [_check_pattern_match] *)

Lemma count_matches_le flags indicators :
  NoDup flags -> (count_matches flags indicators <= List.length indicators)%nat.
Proof.
  intros Hnd. unfold count_matches. apply NoDup_incl_length.
  - apply NoDup_filter. exact Hnd.
  - intros f Hf. apply filter_In in Hf as [_ Hf].
    apply existsb_exists in Hf as [g [Hg Eg]]. apply String.eqb_eq in Eg. subst. exact Hg.
Qed.

Lemma match_fraction_bound flags indicators :
  NoDup flags -> indicators <> [] ->
  0 <= inject_Z (Z.of_nat (count_matches flags indicators)) /
       inject_Z (Z.of_nat (List.length indicators)) <= 1.
Proof.
  intros Hnd Hne. pose proof (count_matches_le flags indicators Hnd) as Hle.
  assert (Hn : (0 < List.length indicators)%nat)
    by (destruct indicators; [congruence|simpl; lia]).
  set (n := List.length indicators) in *.
  assert (Hq : 0 < inject_Z (Z.of_nat n)).
  { change 0 with (inject_Z 0). rewrite <- Zlt_Qlt. lia. }
  assert (Hc : inject_Z (Z.of_nat (count_matches flags indicators)) <= inject_Z (Z.of_nat n))
    by (rewrite <- Zle_Qle; lia).
  pose proof (inject_nat_nonneg (count_matches flags indicators)).
  assert (E : inject_Z (Z.of_nat (count_matches flags indicators)) / inject_Z (Z.of_nat n) *
              inject_Z (Z.of_nat n) == inject_Z (Z.of_nat (count_matches flags indicators)))
    by (field; lra).
  split.
  - apply Qdiv_nonneg; lra.
  - apply (Qmult_le_r _ _ _ Hq). rewrite E. lra.
Qed.

Lemma max_match_percentage_bound flags patterns :
  NoDup flags -> 0 <= max_match_percentage flags patterns <= 1.
Proof.
  intros Hnd. unfold max_match_percentage.
  assert (Hgen : forall acc, 0 <= acc <= 1 ->
    0 <= fold_left (fun acc p =>
           match fp_indicators p with
           | [] => acc
           | indicators =>
               py_max acc (inject_Z (Z.of_nat (count_matches flags indicators)) /
                           inject_Z (Z.of_nat (List.length indicators)))
           end) patterns acc <= 1).
  { induction patterns as [|p rest IH]; simpl; intros acc Hacc; [exact Hacc|].
    apply IH. destruct (fp_indicators p) as [|i is] eqn:Ei; [exact Hacc|].
    assert (Hne : i :: is <> []) by discriminate.
    pose proof (match_fraction_bound flags (i :: is) Hnd Hne).
    change (Z.pos (Pos.of_succ_nat (List.length is))) with (Z.of_nat (List.length (i :: is))).
    lazymatch goal with
    | |- context [py_max acc ?y] => destruct (py_max_cases acc y) as [C|C]; rewrite C
    end; lra. }
  apply Hgen. lra.
Qed.

(** The pattern risk is in [[0, 1]] when the flags have no duplicates
    and the vector search scores are non-negative. *)
Theorem pattern_risk_bounded embedding has_vector_index vector_search patterns flags :
  NoDup flags ->
  (forall e ps p s, vector_search e = Ret ps -> In p ps -> fp_score p = Some s -> 0 <= s) ->
  0 <= snd (check_pattern_match embedding has_vector_index vector_search patterns flags) <= 1.
Proof.
  intros Hnd Hvs. unfold check_pattern_match, catch_detector, check_pattern_body.
  destruct embedding as [e|]; cbn [bind]; [|simpl; lra].
  destruct has_vector_index eqn:Hv.
  - destruct (vector_search e) as [ps|] eqn:Es; simpl; [|lra].
    destruct ps as [|p0 rest]; simpl; [lra|].
    destruct (fp_score p0) as [s|] eqn:Hs.
    + pose proof (Hvs e _ p0 s Es (or_introl eq_refl) Hs).
      pose proof (py_min_le_l 1 s).
      destruct (py_min_cases 1 s) as [C|C]; rewrite C in *; simpl; lra.
    + apply max_match_percentage_bound. exact Hnd.
  - destruct (firstn 3 (filter (indicator_query flags) patterns)) as [|p0 rest];
      simpl; [lra|].
    apply max_match_percentage_bound. exact Hnd.
Qed.

Lemma pattern_risk_bounded_witness :
  check_pattern_match some_embedding false empty_search
    [pattern_velocity; pattern_takeover] ["unusual_amount"; "velocity_alert"] =
    (true, 2#2) /\
  0 <= snd (check_pattern_match some_embedding false empty_search
              [pattern_velocity; pattern_takeover] ["unusual_amount"; "velocity_alert"]) <= 1.
Proof.
  split; [vm_compute; reflexivity|].
  apply pattern_risk_bounded.
  - repeat constructor; simpl; intuition discriminate.
  - intros e ps p s Es. unfold empty_search in Es. injection Es as <-. intros [].
Defined.

(** ** [evaluate_transaction]: the range of the score *)

Lemma round2_range x : 0 <= x <= 100 -> 0 <= round2 x <= 100.
Proof.
  intros Hx. unfold round2.
  set (n := x * 100). set (f := Qfloor n).
  assert (Hn : 0 <= n <= 10000) by (unfold n; lra).
  pose proof (Qfloor_le n) as Hfl. pose proof (Qlt_floor n) as Hfu. fold f in Hfl, Hfu.
  assert (Hf0 : (0 <= f)%Z).
  { assert (H : inject_Z 0 < inject_Z (f + 1)) by (change (inject_Z 0) with 0; lra).
    rewrite <- Zlt_Qlt in H. lia. }
  assert (Hf1 : (f <= 10000)%Z).
  { assert (H : inject_Z f <= inject_Z 10000) by (change (inject_Z 10000) with 10000; lra).
    rewrite <- Zle_Qle in H. exact H. }
  assert (Hk : forall k : Z, (0 <= k <= 10000)%Z -> 0 <= inject_Z k / 100 <= 100).
  { intros k Hk. assert (H0 : inject_Z 0 <= inject_Z k) by (rewrite <- Zle_Qle; lia).
    assert (H1 : inject_Z k <= inject_Z 10000) by (rewrite <- Zle_Qle; lia).
    change (inject_Z 0) with 0 in H0. change (inject_Z 10000) with 10000 in H1.
    assert (E : inject_Z k / 100 * 100 == inject_Z k) by (field; discriminate).
    split.
    - apply (Qmult_le_r _ _ 100); [reflexivity|]. rewrite E. lra.
    - apply (Qmult_le_r _ _ 100); [reflexivity|]. rewrite E. lra. }
  destruct (Qltb (n - inject_Z f) (1#2)) eqn:E1; [apply Hk; lia|].
  apply Qltb_false in E1.
  assert (Hf2 : (f < 10000)%Z).
  { assert (H : inject_Z f < inject_Z 10000) by (change (inject_Z 10000) with 10000; lra).
    rewrite <- Zlt_Qlt in H. exact H. }
  destruct (Qltb (1#2) (n - inject_Z f)); [apply Hk; lia|].
  destruct (Z.even f); apply Hk; lia.
Qed.

Lemma positive_or_zero_nonneg r : 0 <= positive_or_zero r.
Proof.
  unfold positive_or_zero. destruct (Qltb 0 r) eqn:E; [apply Qltb_true in E|]; lra.
Qed.

Lemma calculate_risk_score_range a l d v p base :
  0 <= a -> 0 <= l -> 0 <= d -> 0 <= v -> 0 <= p -> 0 <= base ->
  0 <= calculate_risk_score a l d v p base <= 100.
Proof.
  intros Ha Hl Hd Hv Hp Hb. unfold calculate_risk_score.
  set (m := py_max (py_max (py_max (py_max (positive_or_zero a) (positive_or_zero l))
                                   (positive_or_zero d)) (positive_or_zero v))
                   (positive_or_zero p)).
  assert (Hm : 0 <= m).
  { unfold m. pose proof (positive_or_zero_nonneg a).
    pose proof (py_max_ge_l (positive_or_zero a) (positive_or_zero l)).
    pose proof (py_max_ge_l (py_max (positive_or_zero a) (positive_or_zero l))
                            (positive_or_zero d)).
    pose proof (py_max_ge_l (py_max (py_max (positive_or_zero a) (positive_or_zero l))
                                    (positive_or_zero d)) (positive_or_zero v)).
    pose proof (py_max_ge_l (py_max (py_max (py_max (positive_or_zero a)
                                                    (positive_or_zero l))
                                            (positive_or_zero d)) (positive_or_zero v))
                            (positive_or_zero p)).
    lra. }
  unfold WEIGHT_AMOUNT, WEIGHT_LOCATION, WEIGHT_DEVICE, WEIGHT_VELOCITY, WEIGHT_PATTERN.
  set (c := if Qleb 80 (m * 100) then _ else _).
  assert (Hc : 0 <= c) by (unfold c; destruct (Qleb 80 (m * 100)); nra).
  pose proof (py_min_le_r c 100).
  destruct (py_min_cases c 100) as [C|C]; rewrite C in *; lra.
Qed.

Lemma risk_if_nonneg r : 0 <= snd r -> 0 <= risk_if r.
Proof. unfold risk_if. destruct (fst r); lra. Qed.

Lemma find_customer_in customers customer_id c :
  find_customer customers customer_id = Some c -> In c customers.
Proof.
  unfold find_customer.
  destruct (find _ customers) as [x|] eqn:E1.
  { intros H. injection H as <-. apply find_some in E1. exact (proj1 E1). }
  destruct (if is_valid_oid customer_id then _ else None) as [x|] eqn:E2.
  { intros H. injection H as <-. destruct (is_valid_oid customer_id); [|discriminate].
    apply find_some in E2. exact (proj1 E2). }
  destruct (find (fun c => match c_account_number c with
                           | Some a => String.eqb a customer_id
                           | None => false
                           end) customers) as [x|] eqn:E3;
    destruct customers as [|c0 rest];
    intros H; try discriminate; injection H as <-;
    try (apply find_some in E3; exact (proj1 E3)); left; reflexivity.
Qed.

(** The score of every assessment is in [[0, 100]], whether or not the
    customers collection can be queried, when the distances are
    non-negative and every stored customer's baseline risk, when present,
    is non-negative. *)
Theorem evaluate_score_range haversine fromisoformat now store txns tx :
  (forall x1 y1 x2 y2 d, haversine x1 y1 x2 y2 = Ret d -> 0 <= d) ->
  (forall customers c q, store = Ret customers -> In c customers ->
     c_overall_risk_score c = Some q -> 0 <= q) ->
  0 <= score (evaluate_transaction haversine fromisoformat now store txns tx) <= 100.
Proof.
  intros Hhav Hbase. unfold evaluate_transaction.
  destruct (tx_customer_id tx) as [customer_id|]; [|simpl; lra].
  destruct (String.eqb customer_id ""); [simpl; lra|].
  destruct (lookup_customer store customer_id) as [c|] eqn:Ef; [|simpl; lra].
  destruct store as [customers|err]; [|discriminate Ef]. cbn [lookup_customer] in Ef.
  unfold assess. cbn [score]. apply round2_range.
  apply calculate_risk_score_range.
  - apply risk_if_nonneg. apply check_amount_bound.
  - apply risk_if_nonneg. apply (check_location_bound haversine Hhav).
  - apply risk_if_nonneg. apply check_device_bound.
  - apply risk_if_nonneg. apply check_velocity_bound.
  - unfold risk_if. simpl. lra.
  - unfold customer_risk_score. destruct (c_overall_risk_score c) as [q|] eqn:Eq; [|lra].
    exact (Hbase customers c q eq_refl (find_customer_in _ _ _ Ef) Eq).
Qed.

Lemma evaluate_score_range_witness :
  0 <= score (evaluate_transaction no_distance no_iso 0 (Ret [profile_c1; profile_c2])
                txns_unreachable tx_ratio7) <= 100.
Proof.
  apply evaluate_score_range.
  - intros x1 y1 x2 y2 d H. unfold no_distance in H. injection H as <-. lra.
  - intros customers c q Hs Hc Hq. injection Hs as <-.
    destruct Hc as [<-|[<-|[]]]; simpl in Hq; [discriminate|injection Hq as <-; lra].
Defined.

(** ** [find_similar_transactions]: the range of the similarity risk *)

Lemma clamp01 r : 0 <= py_max 0 (py_min 1 r) <= 1.
Proof.
  pose proof (py_max_ge_l 0 (py_min 1 r)). pose proof (py_min_le_l 1 r).
  destruct (py_max_cases 0 (py_min 1 r)) as [C|C]; rewrite C in *; lra.
Qed.

(** The similarity risk is in [[0, 1]] for every search outcome: errors,
    no neighbours, or any neighbours, whatever [x ** 1.5] returns. *)
Theorem find_similar_risk_range pow_1_5 search total_count current_amount :
  0 <= find_similar_risk pow_1_5 search total_count current_amount <= 1.
Proof.
  unfold find_similar_risk.
  destruct search as [[|t ts]|]; [destruct (Nat.ltb 10 total_count); lra| |lra].
  destruct (similarity_risk_score pow_1_5 current_amount (t :: ts)) as [x|] eqn:E; [|lra].
  unfold similarity_risk_score in E.
  lazymatch type of E with
  | bind ?m _ = _ => destruct m as [r|]; simpl in E; [|discriminate]
  end.
  injection E as <-. apply clamp01.
Qed.

(** ** [_calculate_risk_score]: monotonicity *)






End FraudDetectionExtraProofs.
